(** * Solar farm dashboard: a shallow embedding of [app/main.py]

    The script reads an uploaded CSV into one pandas dataframe, reports
    data-quality figures, optionally fills or drops missing values, coerces
    object columns and renders four chart widgets.  The dataframe is modelled
    column by column, the library calls the script makes ([ffill], [dropna],
    [to_numeric], [astype(str)], [select_dtypes], [st.multiselect], ...) by
    their documented behaviour, and the script itself as a program in a small
    state-and-exception monad whose state is the dataframe bound to [data]
    together with the list of elements sent to the browser. *)

From Stdlib Require Import String Ascii Bool Arith ZArith QArith Lia List.
Import ListNotations.
Open Scope string_scope.
Open Scope nat_scope.

Set Implicit Arguments.

(** ** Numbers

    Cells of numeric columns are int64 or float64 values.  What the script
    needs of them is an interface: the literal parser behind [pd.to_numeric],
    the value of a Python bool as a number, the text [astype(str)] prints, and
    the product by the constant pi/180 that [np.deg2rad] computes. *)

Class Numeric : Type := {
  num : Type;
  parse_num : string -> option num;
  of_bool : bool -> num;
  num_repr : num -> string;
  mul : num -> num -> num;
  pi_over_180 : num
}.

(** ** The dataframe *)

(** Column dtypes as [select_dtypes] tells them apart: ['number'] (int64 and
    float64), bool, and ['object']. *)
Inductive dtype : Type := DNumber | DBool | DObject.

Definition dtype_eqb (a b : dtype) : bool :=
  match a, b with
  | DNumber, DNumber | DBool, DBool | DObject, DObject => true
  | _, _ => false
  end.

Section Frame.
Context {N : Numeric}.

(** A cell: the missing marker NaN, a number, a Python [str] or a Python
    [bool] (the last two in object columns, bools also in bool columns). *)
Inductive cell : Type :=
| NaN
| Num (x : num)
| Str (s : string)
| Boolean (b : bool).

Record series : Type := mkSeries {
  name : string;
  kind : dtype;
  values : list cell
}.

(** Columns in file order. *)
Definition frame : Type := list series.

Definition with_values (s : series) (vs : list cell) : series :=
  mkSeries (name s) (kind s) vs.

(** [isnull] / [notnull] on one cell. *)
Definition isnull (c : cell) : bool :=
  match c with NaN => true | _ => false end.

Definition notnull (c : cell) : bool := negb (isnull c).

(** [data.columns.tolist()], [data.dtypes] and [data.shape]. *)
Definition columns (df : frame) : list string := map name df.

Definition dtypes (df : frame) : list (string * dtype) :=
  map (fun s => (name s, kind s)) df.

Definition nrows (df : frame) : nat :=
  match df with
  | [] => 0
  | s :: _ => length (values s)
  end.

Definition shape (df : frame) : nat * nat := (nrows df, length df).

(** The cell of column [s] in row [i], and row [i] across the columns. *)
Definition cell_at (i : nat) (s : series) : cell := nth i (values s) NaN.

Definition row (df : frame) (i : nat) : list cell := map (cell_at i) df.

Definition rows (df : frame) : list (list cell) :=
  map (row df) (seq 0 (nrows df)).

(** What [pd.read_csv] guarantees of the frame it returns: every column has
    the same number of rows and column names are distinct (repeated headers
    are renamed [x], [x.1], ...). *)
Definition rectangular (df : frame) : bool :=
  forallb (fun s => length (values s) =? nrows df) df.

Fixpoint mem (x : string) (l : list string) : bool :=
  match l with
  | [] => false
  | y :: t => if String.eqb x y then true else mem x t
  end.

Fixpoint distinct (l : list string) : bool :=
  match l with
  | [] => true
  | x :: t => negb (mem x t) && distinct t
  end.

Definition well_formed (df : frame) : bool :=
  rectangular df && distinct (columns df).

(** [data.head()]: the first five rows. *)
Definition head (df : frame) : frame :=
  map (fun s => with_values s (firstn 5 (values s))) df.

(** ** Missing values *)

(** [data.isnull().sum()]: the number of missing cells of each column. *)
Definition null_count (s : series) : nat :=
  length (filter isnull (values s)).

Definition isnull_sum (df : frame) : list (string * nat) :=
  map (fun s => (name s, null_count s)) df.

(** [missing_values.sum()]. *)
Definition total (counts : list (string * nat)) : nat :=
  fold_right (fun p acc => snd p + acc) 0 counts.

(** [missing_values[missing_values > 0]]. *)
Definition positive (counts : list (string * nat)) : list (string * nat) :=
  filter (fun p => 0 <? snd p) counts.

(** *** [DataFrame.ffill]

    Each column is padded on its own: walking down the column, a missing cell
    takes the last valid value seen so far, and stays missing when none has
    been seen. *)
Fixpoint pad (last : cell) (l : list cell) : list cell :=
  match l with
  | [] => []
  | c :: t => if isnull c then last :: pad last t else c :: pad c t
  end.

Definition ffill_series (s : series) : series :=
  with_values s (pad NaN (values s)).

Definition ffill (df : frame) : frame := map ffill_series df.

(** *** [DataFrame.dropna]

    With the defaults ([axis=0], [how='any']) the row mask is
    [notna(df).all(axis=1)], and every column is then taken at the rows the
    mask keeps. *)
Definition row_complete (df : frame) (i : nat) : bool :=
  forallb (fun s => notnull (cell_at i s)) df.

Definition keep_mask (df : frame) : list bool :=
  map (row_complete df) (seq 0 (nrows df)).

Fixpoint take_mask (A : Type) (m : list bool) (l : list A) : list A :=
  match m, l with
  | b :: m', x :: l' => if b then x :: take_mask m' l' else take_mask m' l'
  | _, _ => []
  end.

Definition dropna (df : frame) : frame :=
  map (fun s => with_values s (take_mask (keep_mask df) (values s))) df.

(** ** Type coercion *)

Inductive exn : Type :=
| ValueError (msg : string)
| KeyError (key : string)
| StreamlitAPIException (msg : string).

Inductive outcome (A : Type) : Type :=
| Ok (a : A)
| Raised (e : exn).
Arguments Raised {A} e.

(** The [errors] argument of [pd.to_numeric]. *)
Inductive errors_mode : Type := ErrorsRaise | ErrorsCoerce.

(** One entry of an object array: a string goes through the numeric parser;
    an unparseable string is an error under [errors='raise'] and becomes NaN
    under [errors='coerce'].  Every other entry is kept. *)
Definition convert_cell (errors : errors_mode) (c : cell) : outcome cell :=
  match c with
  | Str s =>
      match parse_num s with
      | Some x => Ok (Num x)
      | None =>
          match errors with
          | ErrorsCoerce => Ok NaN
          | ErrorsRaise => Raised (ValueError ("Unable to parse string " ++ s))
          end
      end
  | _ => Ok c
  end.

Fixpoint convert_cells (errors : errors_mode) (l : list cell)
  : outcome (list cell) :=
  match l with
  | [] => Ok []
  | c :: t =>
      match convert_cell errors c with
      | Raised e => Raised e
      | Ok c' =>
          match convert_cells errors t with
          | Raised e => Raised e
          | Ok t' => Ok (c' :: t')
          end
      end
  end.

Definition is_boolean (c : cell) : bool :=
  match c with Boolean _ => true | _ => false end.

Definition as_number (c : cell) : cell :=
  match c with Boolean b => Num (of_bool b) | _ => c end.

(** [pd.to_numeric(s, errors=...)].  A column that is already numeric or bool
    is returned as it is.  An object column is converted entry by entry; the
    result is a bool column when every entry is a bool, and a numeric column
    (bools counted as 0 and 1) otherwise. *)
Definition to_numeric (errors : errors_mode) (s : series) : outcome series :=
  match kind s with
  | DObject =>
      match convert_cells errors (values s) with
      | Raised e => Raised e
      | Ok vs =>
          match vs with
          | _ :: _ =>
              if forallb is_boolean vs then Ok (mkSeries (name s) DBool vs)
              else Ok (mkSeries (name s) DNumber (map as_number vs))
          | [] => Ok (mkSeries (name s) DNumber [])
          end
      end
  | _ => Ok s
  end.

(** [Series.astype(str)]: every entry becomes its Python [str()]. *)
Definition cell_str (c : cell) : string :=
  match c with
  | NaN => "nan"
  | Num x => num_repr x
  | Str s => s
  | Boolean true => "True"
  | Boolean false => "False"
  end.

Definition astype_str (s : series) : series :=
  mkSeries (name s) DObject (map (fun c => Str (cell_str c)) (values s)).

(** ** Indexing *)

(** [data.select_dtypes(include=k).columns]. *)
Definition select_dtypes (k : dtype) (df : frame) : list string :=
  columns (filter (fun s => dtype_eqb (kind s) k) df).

Fixpoint lookup (column : string) (df : frame) : option series :=
  match df with
  | [] => None
  | s :: t => if String.eqb column (name s) then Some s else lookup column t
  end.

(** [data[names]] for a list of names: [None] stands for pandas' KeyError. *)
Fixpoint lookup_all (names : list string) (df : frame) : option frame :=
  match names with
  | [] => Some []
  | c :: t =>
      match lookup c df, lookup_all t df with
      | Some s, Some r => Some (s :: r)
      | _, _ => None
      end
  end.

(** [data[column] = s]: the column of that name is replaced where it stands;
    a new name is appended. *)
Fixpoint assign (column : string) (s : series) (df : frame) : frame :=
  match df with
  | [] => [mkSeries column (kind s) (values s)]
  | c :: t =>
      if String.eqb column (name c)
      then mkSeries column (kind s) (values s) :: t
      else c :: assign column s t
  end.

(** [np.deg2rad] on a Series: each number is multiplied by pi/180, NaN stays
    NaN, a bool counts as 0 or 1. *)
Definition deg2rad (x : num) : num := mul x pi_over_180.

Definition deg2rad_cell (c : cell) : cell :=
  match c with
  | Num x => Num (deg2rad x)
  | Boolean b => Num (deg2rad (of_bool b))
  | _ => c
  end.

Definition deg2rad_series (s : series) : series :=
  mkSeries (name s) DNumber (map deg2rad_cell (values s)).

(** ** Browser elements *)

(** Arguments of [st.write]. *)
Inductive value : Type :=
| VText (s : string)
| VFrame (df : frame)
| VShape (sh : nat * nat)
| VNames (l : list string)
| VCounts (l : list (string * nat))
| VDtypes (l : list (string * dtype)).

(** Matplotlib figures handed to [st.pyplot]. *)
Inductive figure : Type :=
| HistPlot (s : series) (bins : Z)
| Heatmap (sub : frame)
| PolarScatter (theta r : series).

Inductive element : Type :=
| PageConfig (page_title layout : string)
| Title (s : string)
| Header (s : string)
| Subheader (s : string)
| FileUploader (label : string)
| Write (args : list value)
| Radio (label : string) (options : list string)
| Success (s : string)
| Info (s : string)
| Warning (s : string)
| SidebarHeader (s : string)
| SidebarCheckbox (label : string)
| SidebarWrite (s : string)
| SidebarInfo (s : string)
| Multiselect (label : string) (options default : list string)
| LineChart (sub : frame)
| Slider (label : string) (min_value max_value value : Z)
| Pyplot (fig : figure).

(** ** The script monad

    The state is the dataframe bound to [data] and the elements rendered so
    far.  An exception stops the script; what it changed before stays. *)
Record world : Type := mkWorld {
  data : frame;
  ui : list element
}.

Definition M (A : Type) : Type := world -> outcome A * world.

Definition ret (A : Type) (a : A) : M A := fun w => (Ok a, w).

Definition bind (A B : Type) (m : M A) (k : A -> M B) : M B :=
  fun w =>
    match m w with
    | (Ok a, w') => k a w'
    | (Raised e, w') => (Raised e, w')
    end.

Definition raise (A : Type) (e : exn) : M A := fun w => (Raised e, w).

(** [try: m except <catch>: h]. *)
Definition try_except (A : Type) (m : M A) (catch : exn -> bool) (h : M A)
  : M A :=
  fun w =>
    match m w with
    | (Raised e, w') => if catch e then h w' else (Raised e, w')
    | r => r
    end.

Definition is_ValueError (e : exn) : bool :=
  match e with ValueError _ => true | _ => false end.

Definition lift (A : Type) (o : outcome A) : M A := fun w => (o, w).

Definition get_data : M frame := fun w => (Ok (data w), w).

Definition set_data (df : frame) : M unit :=
  fun w => (Ok tt, mkWorld df (ui w)).

Definition show (e : element) : M unit :=
  fun w => (Ok tt, mkWorld (data w) (ui w ++ [e])).

End Frame.

Arguments Ok {A} a.
Arguments Raised {A} e.
Arguments ret {N A} a.
Arguments raise {N A} e.

Declare Scope script_scope.
Delimit Scope script_scope with script.
Notation "x <- m ;; k" := (bind m (fun x => k))
  (at level 61, m at next level, right associativity) : script_scope.
Notation "m ;; k" := (bind m (fun _ => k))
  (at level 61, right associativity) : script_scope.
Open Scope script_scope.

(** ** The script *)

Section Script.
Context {N : Numeric}.

Definition getitem (column : string) : M series :=
  fun w =>
    match lookup column (data w) with
    | Some s => (Ok s, w)
    | None => (Raised (KeyError column), w)
    end.

Definition getitems (names : list string) : M frame :=
  fun w =>
    match lookup_all names (data w) with
    | Some sub => (Ok sub, w)
    | None => (Raised (KeyError "not in index"), w)
    end.

Definition setitem (column : string) (s : series) : M unit :=
  fun w => (Ok tt, mkWorld (assign column s (data w)) (ui w)).

(** An [inplace=True] method call on [data]. *)
Definition inplace (f : frame -> frame) : M unit :=
  fun w => (Ok tt, mkWorld (f (data w)) (ui w)).

Fixpoint for_each (A : Type) (l : list A) (body : A -> M unit) : M unit :=
  match l with
  | [] => ret tt
  | x :: t => body x;; for_each t body
  end.

(** What the user has set on the page when the script runs: the position
    chosen on the radio control, the state of the sidebar checkbox, the two
    multiselect choices ([None]: not touched, the default stands) and the
    slider. *)
Record session : Type := mkSession {
  radio_index : nat;
  show_cleaned : bool;
  line_selection : option (list string);
  bin_choice : option Z;
  corr_selection : option (list string)
}.

(** [st.radio]: returns one of its options, the first one by default. *)
Definition radio (label : string) (options : list string) (index : nat)
  : M string :=
  show (Radio label options);;
  ret (nth index options (hd "" options)).

Definition sidebar_checkbox (label : string) (checked : bool) : M bool :=
  show (SidebarCheckbox label);;
  ret checked.

(** [st.multiselect]: every default must be one of the options, otherwise
    the call raises [StreamlitAPIException]; the value returned is the
    default, or the user's choice, which is made among the options. *)
Definition multiselect (label : string) (options default : list string)
  (chosen : option (list string)) : M (list string) :=
  if forallb (fun d => mem d options) default then
    show (Multiselect label options default);;
    ret (match chosen with
         | None => default
         | Some sel => filter (fun c => mem c options) sel
         end)
  else
    raise (StreamlitAPIException
             "Every Multiselect default value must exist in options").

(** [st.slider]: the value lies between the two bounds. *)
Definition slider (label : string) (lo hi value : Z) (chosen : option Z)
  : M Z :=
  show (Slider label lo hi value);;
  ret (match chosen with
       | None => value
       | Some v => Z.max lo (Z.min hi v)
       end).

(** Lines 33-52. *)
Definition quality_check (s : session) : M unit :=
  show (Subheader "Data Quality Check");;
  df <- get_data;;
  let missing_values := isnull_sum df in
  if 0 <? total missing_values then
    show (Write [VText "Missing values in each column:"]);;
    show (Write [VCounts (positive missing_values)]);;
    handle_missing <-
      radio "Select how to handle missing values:"
        ["No action"; "Forward fill"; "Drop rows with missing values"]
        (radio_index s);;
    if String.eqb handle_missing "Forward fill" then
      inplace ffill;;
      show (Success "Missing values filled using forward fill!")
    else if String.eqb handle_missing "Drop rows with missing values" then
      inplace dropna;;
      show (Success "Rows with missing values have been dropped!")
    else ret tt
  else
    show (Write [VText "No missing values detected!"]).

(** Lines 59-65: the [try] block, the [except ValueError] block, the body of
    the loop, and the loop. *)
Definition convert_column (column : string) : M unit :=
  s <- getitem column;;
  v <- lift (to_numeric ErrorsCoerce s);;
  setitem column v.

Definition fallback_column (column : string) : M unit :=
  s <- getitem column;;
  setitem column (astype_str s).

Definition coerce_column (column : string) : M unit :=
  try_except (convert_column column) is_ValueError (fallback_column column).

Definition coerce_objects : M unit :=
  df <- get_data;;
  for_each (select_dtypes DObject df) coerce_column.

(** Lines 20-72: the body of the first [if uploaded_file:], where [f] is the
    frame [pd.read_csv] returned. *)
Definition cleaning (f : frame) (s : session) : M unit :=
  set_data f;;
  show (Subheader "Raw Data Preview");;
  df <- get_data;;
  show (Write [VFrame (head df)]);;
  show (Subheader "Dataset Overview");;
  df <- get_data;;
  show (Write [VText "Shape of the data:"; VShape (shape df)]);;
  show (Write [VText "Columns in the dataset:"; VNames (columns df)]);;
  quality_check s;;
  show (Subheader "Column Data Types");;
  df <- get_data;;
  show (Write [VDtypes (dtypes df)]);;
  coerce_objects;;
  show (SidebarHeader "Cleaning Options");;
  clean_data <- sidebar_checkbox "Show cleaned data" (show_cleaned s);;
  if clean_data then
    show (Write [VText "### Cleaned Data Preview"]);;
    df <- get_data;;
    show (Write [VFrame (head df)])
  else ret tt.

(** Lines 81-89. *)
Definition line_chart_section (numeric_columns : list string) (s : session)
  : M unit :=
  show (Subheader "Solar Radiation Trends");;
  selected_columns <-
    multiselect "Select columns for line chart:" numeric_columns
      ["GHI"; "DNI"; "DHI"] (line_selection s);;
  match selected_columns with
  | _ :: _ =>
      sub <- getitems selected_columns;;
      show (LineChart sub)
  | [] => show (Warning "Please select at least one column for the line chart.")
  end.

(** Lines 92-99. *)
Definition histogram_section (s : session) : M unit :=
  df <- get_data;;
  if mem "GHI" (columns df) then
    show (Subheader "Histogram for Global Horizontal Irradiance (GHI)");;
    bin_size <- slider "Select number of bins:" 5 50 20 (bin_choice s);;
    ghi <- getitem "GHI";;
    show (Pyplot (HistPlot ghi bin_size))
  else
    show (Warning "GHI column is missing in the dataset!").

(** Lines 102-112. *)
Definition correlation_section (numeric_columns : list string) (s : session)
  : M unit :=
  show (Subheader "Correlation Analysis");;
  selected_corr_columns <-
    multiselect "Select numeric columns for correlation matrix:"
      numeric_columns numeric_columns (corr_selection s);;
  match selected_corr_columns with
  | _ :: _ =>
      sub <- getitems selected_corr_columns;;
      show (Pyplot (Heatmap sub))
  | [] =>
      show (Warning "Please select at least one column for correlation analysis.")
  end.

(** Lines 115-123. *)
Definition wind_section : M unit :=
  df <- get_data;;
  if mem "WD" (columns df) && mem "WS" (columns df) then
    show (Subheader "Wind Analysis");;
    wd <- getitem "WD";;
    let wind_direction := deg2rad_series wd in
    wind_speed <- getitem "WS";;
    show (Pyplot (PolarScatter wind_direction wind_speed))
  else
    show (Warning "Wind direction (WD) or speed (WS) columns are missing!").

(** Lines 78-123: the body of the second [if uploaded_file:]. *)
Definition eda (s : session) : M unit :=
  show (Header "Exploratory Data Analysis (EDA)");;
  df <- get_data;;
  let numeric_columns := select_dtypes DNumber df in
  line_chart_section numeric_columns s;;
  histogram_section s;;
  correlation_section numeric_columns s;;
  wind_section.

(** The whole script, for the file the uploader holds (if any). *)
Definition app (uploaded_file : option frame) (s : session) : M unit :=
  show (PageConfig "Solar Farm Data Analysis" "wide");;
  show (Title "Solar Farm Data Analysis Dashboard");;
  show (Header "Data Understanding and Cleaning");;
  show (FileUploader "Upload CSV File for Analysis");;
  match uploaded_file with
  | Some f => cleaning f s
  | None => show (Info "Awaiting CSV file upload for cleaning and analysis.")
  end;;
  match uploaded_file with
  | Some _ => eda s
  | None => show (Info "Upload a dataset to unlock EDA features.")
  end;;
  show (SidebarWrite "### About");;
  show (SidebarInfo "This dashboard allows users to perform data cleaning and exploratory data analysis on solar farm data.").

(** A run starts with nothing bound to [data] and an empty page. *)
Definition start : world := mkWorld [] [].

Definition run (uploaded_file : option frame) (s : session)
  : outcome unit * world :=
  app uploaded_file s start.

End Script.

(** ** What the script leaves behind, in closed form

    The functions below describe the dataframe and the page after each stage
    of the script.  The theorems further down prove that running the script
    yields exactly these. *)

Section Stages.
Context {N : Numeric}.

(** The most recent non-missing value above row [i] of a column, if any. *)
Definition last_valid (l : list cell) (i : nat) : option cell :=
  find notnull (rev (firstn i l)).

(** The rows the [dropna] mask keeps, by position. *)
Definition kept (df : frame) : list nat :=
  filter (row_complete df) (seq 0 (nrows df)).

(** The column one pass of the loop body (lines 61-65) stores back. *)
Definition coerce_series (s : series) : series :=
  match to_numeric ErrorsCoerce s with
  | Ok v => v
  | Raised _ => astype_str s
  end.

(** What [errors='coerce'] does to one entry. *)
Definition coerce_cell (c : cell) : cell :=
  match c with
  | Str t =>
      match parse_num t with
      | Some x => Num x
      | None => NaN
      end
  | _ => c
  end.

(** The frame after the loop has gone through the names [l]. *)
Definition coerce_fold (l : list string) (df : frame) : frame :=
  fold_left
    (fun d column =>
       match lookup column d with
       | Some s => assign column (coerce_series s) d
       | None => d
       end)
    l df.

Definition coerced (df : frame) : frame :=
  coerce_fold (select_dtypes DObject df) df.

Definition has_missing (df : frame) : bool := 0 <? total (isnull_sum df).

Definition radio_options : list string :=
  ["No action"; "Forward fill"; "Drop rows with missing values"].

Definition chosen_strategy (s : session) : string :=
  nth (radio_index s) radio_options (hd "" radio_options).

(** The frame after lines 34-52. *)
Definition handled (f : frame) (s : session) : frame :=
  if has_missing f then
    if String.eqb (chosen_strategy s) "Forward fill" then ffill f
    else if String.eqb (chosen_strategy s) "Drop rows with missing values"
         then dropna f
         else f
  else f.

Definition preamble_ui : list element :=
  [PageConfig "Solar Farm Data Analysis" "wide";
   Title "Solar Farm Data Analysis Dashboard";
   Header "Data Understanding and Cleaning";
   FileUploader "Upload CSV File for Analysis"].

Definition load_ui (f : frame) : list element :=
  [Subheader "Raw Data Preview"; Write [VFrame (head f)]].

Definition overview_ui (f : frame) : list element :=
  [Subheader "Dataset Overview";
   Write [VText "Shape of the data:"; VShape (shape f)];
   Write [VText "Columns in the dataset:"; VNames (columns f)]].

Definition missing_ui (f : frame) : list element :=
  Subheader "Data Quality Check" ::
  (if has_missing f then
     [Write [VText "Missing values in each column:"];
      Write [VCounts (positive (isnull_sum f))]]
   else [Write [VText "No missing values detected!"]]).

Definition strategy_ui (f : frame) (s : session) : list element :=
  if has_missing f then
    Radio "Select how to handle missing values:" radio_options ::
    (if String.eqb (chosen_strategy s) "Forward fill" then
       [Success "Missing values filled using forward fill!"]
     else if String.eqb (chosen_strategy s) "Drop rows with missing values"
          then [Success "Rows with missing values have been dropped!"]
          else [])
  else [].

Definition dtypes_ui (d : frame) : list element :=
  [Subheader "Column Data Types"; Write [VDtypes (dtypes d)]].

Definition preview_ui (d : frame) (s : session) : list element :=
  [SidebarHeader "Cleaning Options"; SidebarCheckbox "Show cleaned data"] ++
  (if show_cleaned s then
     [Write [VText "### Cleaned Data Preview"]; Write [VFrame (head d)]]
   else []).

Definition about_ui : list element :=
  [SidebarWrite "### About";
   SidebarInfo "This dashboard allows users to perform data cleaning and exploratory data analysis on solar farm data."].

(** The elements of the missing-value prompt and its alternative. *)
Definition quality_element (e : element) : bool :=
  match e with
  | Radio _ _ => true
  | Write [VCounts _] => true
  | Write [VText t] =>
      String.eqb t "Missing values in each column:"
      || String.eqb t "No missing values detected!"
  | _ => false
  end.

(** The columns a chart element draws. *)
Definition chart_columns (e : element) : list string :=
  match e with
  | LineChart sub => columns sub
  | Pyplot (HistPlot s _) => [name s]
  | Pyplot (Heatmap sub) => columns sub
  | Pyplot (PolarScatter theta r) => [name theta; name r]
  | _ => []
  end.

Definition columns_exist (df : frame) (e : element) : bool :=
  forallb (fun c => mem c (columns df)) (chart_columns e).

Definition is_warning (e : element) : bool :=
  match e with Warning _ => true | _ => false end.

Definition is_KeyError (e : exn) : bool :=
  match e with KeyError _ => true | _ => false end.

Definition no_KeyError (e : exn) : Prop := is_KeyError e = false.

(** A program that leaves [data] as it is, adds the elements [es] to the
    page whatever was there, every one of them satisfying [P], and either
    returns a value satisfying [R] or raises an exception satisfying [Q]. *)
Definition emits (A : Type) (P : element -> Prop) (Q : exn -> Prop)
  (R : A -> Prop) (d : frame) (m : M A) : Prop :=
  exists r es,
    (forall u, m (mkWorld d u) = (r, mkWorld d (u ++ es)%list)) /\
    Forall P es /\
    match r with Ok a => R a | Raised e => Q e end.

(** What every element of the chart section satisfies on the frame [d]. *)
Definition chart_element (d : frame) (e : element) : Prop :=
  columns_exist d e = true /\ quality_element e = false.

(** The points [ax.scatter(theta, r)] receives: one per pair of entries. *)
Definition scatter_points (theta r : series) : list (cell * cell) :=
  combine (values theta) (values r).

(** The two halves of "the cleaning strategies do what their names say",
    read to the letter: dropping keeps exactly the complete rows, and filling
    gives every missing cell the latest valid value above it. *)
Definition drop_keeps_complete_rows (df : frame) : Prop :=
  rows (dropna df) = filter (forallb notnull) (rows df).

Definition fill_replaces_every_missing_cell (df : frame) : Prop :=
  forall c s i,
    lookup c df = Some s ->
    i < length (values s) ->
    exists s',
      lookup c (ffill df) = Some s' /\
      (isnull (cell_at i s) = false -> cell_at i s' = cell_at i s) /\
      (isnull (cell_at i s) = true ->
       exists j,
         j < i /\ isnull (cell_at j s) = false /\
         (forall k, j < k -> k < i -> isnull (cell_at k s) = true) /\
         cell_at i s' = cell_at j s).

Definition strategies_as_named (df : frame) : Prop :=
  drop_keeps_complete_rows df /\ fill_replaces_every_missing_cell df.

(** "An object column that is not all numbers ends up a column of strings". *)
Definition falls_back_to_strings (df : frame) : Prop :=
  forall c s,
    lookup c df = Some s ->
    kind s = DObject ->
    (exists t, In (Str t) (values s) /\ parse_num t = None) ->
    exists s',
      lookup c (coerced df) = Some s' /\
      kind s' = DObject /\
      forall v, In v (values s') -> exists t, v = Str t.

End Stages.

(** ** The chart section in closed form

    The elements each chart block (lines 81-123) adds to the page, as
    functions of the frame in [data] and of the widget state. *)

Section ChartStages.
Context {N : Numeric}.

(** The default of the line-chart selector (line 84). *)
Definition line_defaults : list string := ["GHI"; "DNI"; "DHI"].

(** Every default of the line-chart selector is a numeric column. *)
Definition defaults_valid (d : frame) : bool :=
  forallb (fun c => mem c (select_dtypes DNumber d)) line_defaults.

Definition multiselect_error : exn :=
  StreamlitAPIException
    "Every Multiselect default value must exist in options".

(** What a multiselect returns once its defaults are accepted. *)
Definition selection (options default : list string)
  (chosen : option (list string)) : list string :=
  match chosen with
  | None => default
  | Some sel => filter (fun c => mem c options) sel
  end.

(** [data[names]] when every name is a column. *)
Definition subframe (names : list string) (d : frame) : frame :=
  match lookup_all names d with
  | Some sub => sub
  | None => []
  end.

(** The value of the bins slider (line 94). *)
Definition bins_of (s : session) : Z :=
  match bin_choice s with
  | None => 20%Z
  | Some v => Z.max 5 (Z.min 50 v)
  end.

Definition ghi_warning : element :=
  Warning "GHI column is missing in the dataset!".

Definition wind_warning : element :=
  Warning "Wind direction (WD) or speed (WS) columns are missing!".

Definition line_ui (d : frame) (s : session) : list element :=
  [Subheader "Solar Radiation Trends";
   Multiselect "Select columns for line chart:" (select_dtypes DNumber d)
     line_defaults] ++
  match selection (select_dtypes DNumber d) line_defaults (line_selection s)
  with
  | [] => [Warning "Please select at least one column for the line chart."]
  | sel => [LineChart (subframe sel d)]
  end.

Definition histogram_ui (d : frame) (s : session) : list element :=
  match lookup "GHI" d with
  | Some ghi =>
      [Subheader "Histogram for Global Horizontal Irradiance (GHI)";
       Slider "Select number of bins:" 5 50 20;
       Pyplot (HistPlot ghi (bins_of s))]
  | None => [ghi_warning]
  end.

Definition correlation_ui (d : frame) (s : session) : list element :=
  [Subheader "Correlation Analysis";
   Multiselect "Select numeric columns for correlation matrix:"
     (select_dtypes DNumber d) (select_dtypes DNumber d)] ++
  match selection (select_dtypes DNumber d) (select_dtypes DNumber d)
          (corr_selection s)
  with
  | [] =>
      [Warning "Please select at least one column for correlation analysis."]
  | sel => [Pyplot (Heatmap (subframe sel d))]
  end.

Definition wind_ui (d : frame) : list element :=
  match lookup "WD" d, lookup "WS" d with
  | Some wd, Some ws =>
      [Subheader "Wind Analysis";
       Pyplot (PolarScatter (deg2rad_series wd) ws)]
  | _, _ => [wind_warning]
  end.

Definition charts_ui (d : frame) (s : session) : list element :=
  Header "Exploratory Data Analysis (EDA)" ::
  line_ui d s ++ histogram_ui d s ++ correlation_ui d s ++ wind_ui d.

(** The page of a run on the file [f]. *)
Definition cleaning_page (f : frame) (s : session) : list element :=
  preamble_ui ++ load_ui f ++ overview_ui f ++ missing_ui f ++
  strategy_ui f s ++ dtypes_ui (handled f s) ++
  preview_ui (coerced (handled f s)) s.

End ChartStages.

(** ** Decimal readings

    An instance of the numeric interface with exact rationals: plain decimal
    literals (sign, digits, optional fraction) are the strings that parse, and
    pi/180 is the float64 constant numpy multiplies by.  The examples below
    are run on it. *)

Module Decimal.

Definition digit (c : ascii) : option Z :=
  let n := nat_of_ascii c in
  if (48 <=? n) && (n <=? 57) then Some (Z.of_nat (n - 48)) else None.

(** Reads the leading digits of [s]: their value after [acc], how many were
    read after [count], and the rest of the string. *)
Fixpoint read_digits (s : string) (acc : Z) (count : nat)
  : Z * nat * string :=
  match s with
  | EmptyString => (acc, count, s)
  | String c t =>
      match digit c with
      | Some d => read_digits t (10 * acc + d)%Z (S count)
      | None => (acc, count, s)
      end
  end.

Definition parse_unsigned (s : string) : option Q :=
  match read_digits s 0 0 with
  | (_, O, _) => None
  | (i, S _, EmptyString) => Some (inject_Z i)
  | (i, S _, String c t) =>
      if Ascii.eqb c "."%char then
        match read_digits t 0 0 with
        | (f, S k, EmptyString) =>
            Some (Qmake (i * 10 ^ Z.of_nat (S k) + f)
                        (Z.to_pos (10 ^ Z.of_nat (S k))))
        | _ => None
        end
      else None
  end.

Definition parse (s : string) : option Q :=
  match s with
  | String c t =>
      if Ascii.eqb c "-"%char then option_map Qopp (parse_unsigned t)
      else if Ascii.eqb c "+"%char then parse_unsigned t
      else parse_unsigned s
  | EmptyString => None
  end.

Fixpoint digits_of (fuel : nat) (n : Z) (acc : string) : string :=
  match fuel with
  | O => acc
  | S fuel' =>
      let acc' := String (ascii_of_nat (48 + Z.to_nat (n mod 10))) acc in
      if (n <? 10)%Z then acc' else digits_of fuel' (n / 10)%Z acc'
  end.

Definition repr_Z (z : Z) : string :=
  let body := digits_of (S (Z.to_nat (Z.log2 (Z.abs z)))) (Z.abs z) "" in
  if (z <? 0)%Z then String "-"%char body else body.

(** A rational is printed as numerator/denominator. *)
Definition repr (q : Q) : string :=
  repr_Z (Qnum q) ++ "/" ++ repr_Z (Zpos (Qden q)).

#[export] Instance numeric : Numeric := {|
  num := Q;
  parse_num := parse;
  of_bool := fun b => if b then 1%Q else 0%Q;
  num_repr := repr;
  mul := Qmult;
  pi_over_180 := Qmake 5030569068109113 288230376151711744
|}.

(** A file with the five sensor columns and a site label; the second row has
    no GHI reading and the third no site. *)
Definition readings : frame :=
  [mkSeries "GHI" DNumber [Num 510%Q; NaN; Num 530%Q];
   mkSeries "DNI" DNumber [Num 300%Q; Num 310%Q; Num 320%Q];
   mkSeries "DHI" DNumber [Num 90%Q; Num 95%Q; Num 99%Q];
   mkSeries "WD" DNumber [Num 180%Q; Num 90%Q; Num 270%Q];
   mkSeries "WS" DNumber [Num 3%Q; Num 4%Q; Num 5%Q];
   mkSeries "site" DObject [Str "north"; Str "south"; NaN]].

(** A file without a GHI column. *)
Definition wind_only : frame :=
  [mkSeries "WD" DNumber [Num 180%Q; Num 90%Q];
   mkSeries "WS" DNumber [Num 3%Q; Num 4%Q]].

(** A file whose first GHI reading is missing. *)
Definition late_start : frame :=
  [mkSeries "GHI" DNumber [NaN; Num 510%Q]].

Definition untouched : session := mkSession 0 false None None None.

End Decimal.


(** * Facts about the dataframe operations *)

Unset Implicit Arguments.

Section FrameFacts.
Context {N : Numeric}.

Lemma mem_In (x : string) (l : list string) : mem x l = true <-> In x l.
Proof.
  induction l as [|y t IH]; simpl.
  - split; [discriminate | tauto].
  - destruct (String.eqb_spec x y) as [->|Hne].
    + split; auto.
    + rewrite IH. split; [auto | intros [Heq|Hin]; [congruence | exact Hin]].
Qed.

Lemma lookup_name (c : string) (df : frame) (s : series) :
  lookup c df = Some s -> name s = c /\ In s df.
Proof.
  induction df as [|x t IH]; simpl; [discriminate|].
  destruct (String.eqb_spec c (name x)) as [->|Hne].
  - intros [= <-]. auto.
  - intros H. destruct (IH H). auto.
Qed.

Lemma lookup_mem (c : string) (df : frame) :
  mem c (columns df) = true -> exists s, lookup c df = Some s.
Proof.
  induction df as [|x t IH]; simpl; [discriminate|].
  destruct (String.eqb c (name x)); eauto.
Qed.

Lemma lookup_Some_mem (c : string) (df : frame) (s : series) :
  lookup c df = Some s -> mem c (columns df) = true.
Proof.
  induction df as [|x t IH]; simpl; [discriminate|].
  destruct (String.eqb c (name x)); auto.
Qed.

(** Mapping a name-preserving function over the columns commutes with
    looking a column up. *)
Lemma lookup_map (f : series -> series) (c : string) (df : frame) :
  (forall s, name (f s) = name s) ->
  lookup c (map f df) = option_map f (lookup c df).
Proof.
  intros Hf. induction df as [|x t IH]; simpl; [reflexivity|].
  rewrite Hf. destruct (String.eqb c (name x)); auto.
Qed.

Lemma columns_map (f : series -> series) (df : frame) :
  (forall s, name (f s) = name s) -> columns (map f df) = columns df.
Proof.
  intros Hf. unfold columns. rewrite map_map. apply map_ext. exact Hf.
Qed.

Lemma dtypes_map (f : series -> series) (df : frame) :
  (forall s, name (f s) = name s /\ kind (f s) = kind s) ->
  dtypes (map f df) = dtypes df.
Proof.
  intros Hf. unfold dtypes. rewrite map_map. apply map_ext.
  intros s. destruct (Hf s) as [-> ->]. reflexivity.
Qed.

(** *** Forward fill *)

Lemma pad_length (l : list cell) : forall last, length (pad last l) = length l.
Proof.
  induction l as [|c t IH]; intros last; simpl; [reflexivity|].
  destruct (isnull c); simpl; rewrite IH; reflexivity.
Qed.

Lemma find_app (A : Type) (p : A -> bool) (l1 l2 : list A) :
  find p (l1 ++ l2) =
  match find p l1 with Some x => Some x | None => find p l2 end.
Proof.
  induction l1 as [|x t IH]; simpl; [reflexivity|].
  destruct (p x); auto.
Qed.

(** Row [i] of a padded column, when [last] is the value carried in from
    above the column. *)
Lemma pad_nth (l : list cell) : forall last i,
  i < length l ->
  nth i (pad last l) NaN =
  if isnull (nth i l NaN)
  then match last_valid l i with Some v => v | None => last end
  else nth i l NaN.
Proof.
  unfold last_valid.
  induction l as [|c t IH]; intros last i Hi; simpl in Hi; [lia|].
  destruct i as [|i].
  - simpl. destruct (isnull c); reflexivity.
  - assert (Hi' : i < length t) by lia.
    assert (Hfind : find notnull (rev (firstn (S i) (c :: t))) =
                    match find notnull (rev (firstn i t)) with
                    | Some x => Some x
                    | None => if notnull c then Some c else None
                    end).
    { simpl. rewrite find_app. reflexivity. }
    rewrite Hfind. unfold notnull at 2. simpl.
    destruct (isnull c) eqn:Hc; simpl; rewrite (IH _ i Hi');
      destruct (isnull (nth i t NaN)); try reflexivity;
      destruct (find notnull (rev (firstn i t))); reflexivity.
Qed.

Lemma ffill_series_name (s : series) :
  name (ffill_series s) = name s /\ kind (ffill_series s) = kind s.
Proof. split; reflexivity. Qed.

Lemma lookup_ffill (c : string) (df : frame) :
  lookup c (ffill df) = option_map ffill_series (lookup c df).
Proof. apply lookup_map. intros s. reflexivity. Qed.

Lemma nrows_ffill (df : frame) : nrows (ffill df) = nrows df.
Proof. destruct df as [|s t]; simpl; [reflexivity | apply pad_length]. Qed.

(** A cell of a filled column: a valid cell is as before, a missing one holds
    the latest valid value above it, and is still missing when there is
    none. *)
Lemma ffill_cell (s : series) (i : nat) :
  i < length (values s) ->
  cell_at i (ffill_series s) =
  if isnull (cell_at i s)
  then match last_valid (values s) i with Some v => v | None => NaN end
  else cell_at i s.
Proof. intros Hi. unfold cell_at. simpl. apply pad_nth. exact Hi. Qed.

Lemma ffill_keeps_valid (s : series) (i : nat) :
  isnull (cell_at i s) = false -> cell_at i (ffill_series s) = cell_at i s.
Proof.
  intros Hv. destruct (Nat.lt_ge_cases i (length (values s))) as [Hi|Hi].
  - rewrite ffill_cell by exact Hi. rewrite Hv. reflexivity.
  - unfold cell_at in Hv. rewrite nth_overflow in Hv by exact Hi.
    discriminate.
Qed.

End FrameFacts.

(** *** Dropping rows *)

Section DropFacts.
Context {N : Numeric}.

(** Taking a list at a mask computed from the positions is taking it at the
    positions the mask keeps. *)
Lemma take_mask_positions (A : Type) (p : nat -> bool) (d : A) (l : list A) :
  forall start,
    take_mask (map p (seq start (length l))) l =
    map (fun i => nth (i - start) l d) (filter p (seq start (length l))).
Proof.
  induction l as [|x t IH]; intros start; simpl; [reflexivity|].
  assert (Htail : map (fun i => nth (i - S start) t d)
                      (filter p (seq (S start) (length t))) =
                  map (fun i => nth (i - start) (x :: t) d)
                      (filter p (seq (S start) (length t)))).
  { apply map_ext_in. intros i Hi.
    apply filter_In in Hi. destruct Hi as [Hi _].
    apply in_seq in Hi.
    replace (i - start) with (S (i - S start)) by lia. reflexivity. }
  destruct (p start); simpl; rewrite IH, Htail;
    [rewrite Nat.sub_diag|]; reflexivity.
Qed.

Lemma take_mask_rows (p : nat -> bool) (l : list cell) :
  take_mask (map p (seq 0 (length l))) l =
  map (fun i => nth i l NaN) (filter p (seq 0 (length l))).
Proof.
  rewrite (take_mask_positions cell p NaN l 0).
  apply map_ext. intros i. rewrite Nat.sub_0_r. reflexivity.
Qed.

Lemma map_nth_seq (A B : Type) (f : A -> B) (d : A) (l : list A) :
  map (fun j => f (nth j l d)) (seq 0 (length l)) = map f l.
Proof.
  induction l as [|x t IH]; simpl; [reflexivity|].
  f_equal. rewrite <- seq_shift, map_map. exact IH.
Qed.

Lemma filter_map_comm (A B : Type) (p : B -> bool) (g : A -> B) (l : list A) :
  filter p (map g l) = map g (filter (fun a => p (g a)) l).
Proof.
  induction l as [|x t IH]; simpl; [reflexivity|].
  destruct (p (g x)); simpl; rewrite IH; reflexivity.
Qed.

Lemma forallb_map (A B : Type) (p : B -> bool) (g : A -> B) (l : list A) :
  forallb p (map g l) = forallb (fun a => p (g a)) l.
Proof.
  induction l as [|x t IH]; simpl; [reflexivity|].
  rewrite IH. reflexivity.
Qed.

Lemma rectangular_length (df : frame) (s : series) :
  rectangular df = true -> In s df -> length (values s) = nrows df.
Proof.
  unfold rectangular. rewrite forallb_forall. intros H Hin.
  apply Nat.eqb_eq. apply H. exact Hin.
Qed.

Lemma dropna_values (df : frame) (s : series) :
  rectangular df = true -> In s df ->
  take_mask (keep_mask df) (values s) = map (fun i => cell_at i s) (kept df).
Proof.
  intros Hr Hin. unfold keep_mask, kept.
  rewrite <- (rectangular_length df s Hr Hin).
  apply take_mask_rows.
Qed.

Lemma dropna_map (df : frame) :
  rectangular df = true ->
  dropna df =
  map (fun s => with_values s (map (fun i => cell_at i s) (kept df))) df.
Proof.
  intros Hr. unfold dropna. apply map_ext_in.
  intros s Hin. rewrite dropna_values by assumption. reflexivity.
Qed.

Lemma nrows_dropna (df : frame) :
  rectangular df = true -> df <> [] -> nrows (dropna df) = length (kept df).
Proof.
  intros Hr Hne. rewrite dropna_map by exact Hr.
  destruct df as [|s t]; [congruence|].
  simpl. apply length_map.
Qed.

Lemma row_dropna (df : frame) (j : nat) :
  rectangular df = true -> j < length (kept df) ->
  row (dropna df) j = row df (nth j (kept df) 0).
Proof.
  intros Hr Hj. rewrite dropna_map by exact Hr.
  unfold row. rewrite map_map. apply map_ext.
  intros s. unfold cell_at at 1. simpl.
  rewrite (nth_indep _ NaN (cell_at 0 s)) by (rewrite length_map; exact Hj).
  rewrite (map_nth (fun i => cell_at i s)). reflexivity.
Qed.

(** [dropna] keeps the rows without a missing cell, as they were and in
    their order. *)
Lemma rows_dropna (df : frame) :
  rectangular df = true ->
  rows (dropna df) = filter (forallb notnull) (rows df).
Proof.
  intros Hr. destruct df as [|s0 t0] eqn:Hdf; [reflexivity|]. rewrite <- Hdf.
  assert (Hne : df <> []) by (rewrite Hdf; discriminate).
  rewrite <- Hdf in Hr. clear Hdf.
  unfold rows at 1. rewrite nrows_dropna by assumption.
  transitivity (map (fun j => row df (nth j (kept df) 0))
                    (seq 0 (length (kept df)))).
  - apply map_ext_in. intros j Hj. apply in_seq in Hj.
    apply row_dropna; [exact Hr | lia].
  - rewrite (map_nth_seq nat (list cell) (row df) 0 (kept df)).
    unfold rows. rewrite filter_map_comm. f_equal.
    unfold kept. apply filter_ext. intros i.
    unfold row, row_complete. rewrite forallb_map. reflexivity.
Qed.

Lemma dtypes_dropna (df : frame) : dtypes (dropna df) = dtypes df.
Proof. apply dtypes_map. intros s. split; reflexivity. Qed.

Lemma columns_dropna (df : frame) : columns (dropna df) = columns df.
Proof. apply columns_map. intros s. reflexivity. Qed.

Lemma columns_ffill (df : frame) : columns (ffill df) = columns df.
Proof. apply columns_map. intros s. reflexivity. Qed.

Lemma dtypes_ffill (df : frame) : dtypes (ffill df) = dtypes df.
Proof. apply dtypes_map. intros s. split; reflexivity. Qed.

End DropFacts.

(** *** Coercion *)

Section CoerceFacts.
Context {N : Numeric}.

Lemma convert_cells_coerce (l : list cell) :
  convert_cells ErrorsCoerce l = Ok (map coerce_cell l).
Proof.
  induction l as [|c t IH]; simpl; [reflexivity|].
  rewrite IH. destruct c as [|x|u|b]; simpl; try reflexivity.
  destruct (parse_num u); reflexivity.
Qed.

(** With [errors='coerce'] the conversion always returns a column. *)
Lemma to_numeric_coerce (s : series) :
  to_numeric ErrorsCoerce s = Ok (coerce_series s).
Proof.
  unfold coerce_series, to_numeric.
  destruct (kind s); try reflexivity.
  rewrite convert_cells_coerce.
  destruct (map coerce_cell (values s)); [reflexivity|].
  destruct (forallb is_boolean (c :: l)); reflexivity.
Qed.

Lemma coerce_series_object (s : series) :
  kind s = DObject ->
  coerce_series s =
  let vs := map coerce_cell (values s) in
  match vs with
  | _ :: _ =>
      if forallb is_boolean vs then mkSeries (name s) DBool vs
      else mkSeries (name s) DNumber (map as_number vs)
  | [] => mkSeries (name s) DNumber []
  end.
Proof.
  intros Hk. unfold coerce_series, to_numeric. rewrite Hk.
  rewrite convert_cells_coerce. simpl.
  destruct (map coerce_cell (values s)); [reflexivity|].
  destruct (forallb is_boolean (c :: l)); reflexivity.
Qed.

Lemma coerce_series_other (s : series) :
  kind s <> DObject -> coerce_series s = s.
Proof.
  intros Hk. unfold coerce_series, to_numeric.
  destruct (kind s); congruence.
Qed.

Lemma coerce_series_name (s : series) : name (coerce_series s) = name s.
Proof.
  destruct (kind s) eqn:Hk;
    try (rewrite coerce_series_other by congruence; reflexivity).
  rewrite coerce_series_object by exact Hk. simpl.
  destruct (map coerce_cell (values s)); [reflexivity|].
  destruct (forallb is_boolean (c :: l)); reflexivity.
Qed.

Lemma coerce_series_kind (s : series) : kind (coerce_series s) <> DObject.
Proof.
  destruct (kind s) eqn:Hk;
    try (rewrite coerce_series_other by congruence; congruence).
  rewrite coerce_series_object by exact Hk. simpl.
  destruct (map coerce_cell (values s)); [discriminate|].
  destruct (forallb is_boolean (c :: l)); discriminate.
Qed.

Lemma coerce_series_idem (s : series) :
  coerce_series (coerce_series s) = coerce_series s.
Proof. apply coerce_series_other. apply coerce_series_kind. Qed.

Lemma coerce_series_length (s : series) :
  length (values (coerce_series s)) = length (values s).
Proof.
  destruct (kind s) eqn:Hk;
    try (rewrite coerce_series_other by congruence; reflexivity).
  rewrite coerce_series_object by exact Hk. simpl.
  rewrite <- (length_map coerce_cell (values s)).
  destruct (map coerce_cell (values s)); [reflexivity|].
  destruct (forallb is_boolean (c :: l)); simpl;
    rewrite ?length_map; reflexivity.
Qed.

(** No entry of a coerced column is a string. *)
Lemma coerce_cell_not_str (c : cell) (u : string) : coerce_cell c <> Str u.
Proof.
  destruct c as [|x|v|b]; simpl; try discriminate.
  destruct (parse_num v); discriminate.
Qed.

(** An entry that does not parse sits as NaN in a numeric column. *)
Lemma coerce_unparseable (s : series) (i : nat) (u : string) :
  kind s = DObject ->
  i < length (values s) ->
  cell_at i s = Str u ->
  parse_num u = None ->
  kind (coerce_series s) = DNumber /\ cell_at i (coerce_series s) = NaN.
Proof.
  intros Hk Hi Hc Hp.
  assert (Hnth : nth i (map coerce_cell (values s)) NaN = NaN).
  { pose proof (map_nth coerce_cell (values s) NaN i) as Hmap.
    change (coerce_cell NaN) with NaN in Hmap at 1. rewrite Hmap.
    unfold cell_at in Hc. rewrite Hc. simpl. rewrite Hp. reflexivity. }
  assert (Hin : In NaN (map coerce_cell (values s))).
  { rewrite <- Hnth at 1. apply nth_In. rewrite length_map. exact Hi. }
  rewrite coerce_series_object by exact Hk. simpl.
  destruct (map coerce_cell (values s)) as [|c l] eqn:Hm; [contradiction|].
  destruct (forallb is_boolean (c :: l)) eqn:Hb.
  - rewrite forallb_forall in Hb. specialize (Hb NaN Hin). discriminate.
  - split; [reflexivity|].
    change (nth i (map as_number (c :: l)) NaN = NaN).
    pose proof (map_nth as_number (c :: l) NaN i) as Hmap.
    change (as_number NaN) with NaN in Hmap at 1. rewrite Hmap.
    rewrite Hnth. reflexivity.
Qed.

(** Storing a column under a name the frame has keeps the names. *)
Lemma columns_assign (c : string) (v : series) (df : frame) :
  mem c (columns df) = true -> columns (assign c v df) = columns df.
Proof.
  induction df as [|x t IH]; simpl; [discriminate|].
  destruct (String.eqb_spec c (name x)) as [->|Hne]; simpl.
  - reflexivity.
  - intros H. rewrite IH by exact H. reflexivity.
Qed.

(** A column stored under its own name is the one found under that name. *)
Lemma lookup_assign (c : string) (v : series) (df : frame) :
  name v = c -> lookup c (assign c v df) = Some v.
Proof.
  intros Hv. induction df as [|x t IH]; simpl.
  - rewrite String.eqb_refl. destruct v; simpl in *; subst; reflexivity.
  - destruct (String.eqb_spec c (name x)) as [Hc|Hc]; simpl.
    + rewrite String.eqb_refl. destruct v; simpl in *; subst; reflexivity.
    + destruct (String.eqb_spec c (name x)); [contradiction | exact IH].
Qed.

(** With distinct names, storing a column changes that column alone. *)
Lemma assign_map (c : string) (v : series) (df : frame) :
  distinct (columns df) = true ->
  mem c (columns df) = true ->
  name v = c ->
  assign c v df = map (fun x => if String.eqb (name x) c then v else x) df.
Proof.
  intros Hd Hm Hv. induction df as [|x t IH]; simpl in *; [discriminate|].
  apply andb_true_iff in Hd. destruct Hd as [Hx Hd].
  destruct (String.eqb_spec c (name x)) as [Hc|Hne].
  - rewrite <- Hc, String.eqb_refl. f_equal.
    + destruct v; simpl in *; subst; reflexivity.
    + rewrite <- Hc in Hx.
      clear IH Hm. induction t as [|y t IH]; simpl in *; [reflexivity|].
      destruct (String.eqb_spec c (name y)) as [Hy|Hy]; [discriminate|].
      apply andb_true_iff in Hd.
      destruct (String.eqb_spec (name y) c); [congruence|].
      f_equal. apply IH; tauto.
  - destruct (String.eqb_spec (name x) c); [congruence|].
    f_equal. apply IH; assumption.
Qed.

End CoerceFacts.

(** * Facts about the script *)

Section LoopFacts.
Context {N : Numeric}.

Lemma coerce_column_step (c : string) (s : series) (d : frame)
  (u : list element) :
  lookup c d = Some s ->
  coerce_column c (mkWorld d u) =
  (Ok tt, mkWorld (assign c (coerce_series s) d) u).
Proof.
  intros Hl.
  unfold coerce_column, try_except, convert_column, bind, getitem, lift,
    setitem.
  simpl. rewrite Hl, to_numeric_coerce. reflexivity.
Qed.

Lemma coerce_fold_cons (c : string) (t : list string) (d : frame) :
  coerce_fold (c :: t) d =
  coerce_fold t match lookup c d with
                | Some s => assign c (coerce_series s) d
                | None => d
                end.
Proof. reflexivity. Qed.

Lemma columns_coerce_fold (l : list string) :
  forall d, columns (coerce_fold l d) = columns d.
Proof.
  unfold coerce_fold.
  induction l as [|c t IH]; intros d; simpl; [reflexivity|].
  rewrite IH. destruct (lookup c d) as [s|] eqn:Hl; [|reflexivity].
  apply columns_assign. exact (lookup_Some_mem c d s Hl).
Qed.

(** The loop over names the frame has never raises, touches only [data], and
    leaves the frame [coerce_fold] describes. *)
Lemma for_each_coerce (l : list string) :
  forall d u,
    (forall c, In c l -> mem c (columns d) = true) ->
    for_each l coerce_column (mkWorld d u) =
    (Ok tt, mkWorld (coerce_fold l d) u).
Proof.
  induction l as [|c t IH]; intros d u Hin; [reflexivity|].
  destruct (lookup_mem c d (Hin c (or_introl eq_refl))) as [s Hl].
  simpl for_each. unfold bind.
  rewrite (coerce_column_step c s d u Hl).
  rewrite IH.
  - unfold coerce_fold. simpl. rewrite Hl. reflexivity.
  - intros c' Hc'. rewrite columns_assign.
    + apply Hin. right. exact Hc'.
    + exact (lookup_Some_mem c d s Hl).
Qed.

Lemma select_dtypes_columns (k : dtype) (d : frame) (c : string) :
  In c (select_dtypes k d) -> mem c (columns d) = true.
Proof.
  unfold select_dtypes, columns. intros Hin.
  apply in_map_iff in Hin. destruct Hin as [s [<- Hs]].
  apply filter_In in Hs. destruct Hs as [Hs _].
  apply mem_In. apply in_map. exact Hs.
Qed.

Lemma coerce_objects_run (d : frame) (u : list element) :
  coerce_objects (mkWorld d u) = (Ok tt, mkWorld (coerced d) u).
Proof.
  unfold coerce_objects, bind, get_data. simpl.
  apply for_each_coerce. intros c. apply select_dtypes_columns.
Qed.

Lemma columns_coerced (d : frame) : columns (coerced d) = columns d.
Proof. apply columns_coerce_fold. Qed.

Lemma lookup_distinct (d : frame) (x : series) :
  distinct (columns d) = true -> In x d -> lookup (name x) d = Some x.
Proof.
  induction d as [|y t IH]; simpl; [tauto|].
  intros Hd [->|Hin].
  - rewrite String.eqb_refl. reflexivity.
  - apply andb_true_iff in Hd. destruct Hd as [Hy Hd].
    destruct (String.eqb_spec (name x) (name y)) as [Heq|Hne].
    + apply negb_true_iff in Hy.
      assert (Hm : mem (name y) (columns t) = true).
      { apply mem_In. rewrite <- Heq. apply in_map. exact Hin. }
      congruence.
    + apply IH; assumption.
Qed.

(** With distinct names the loop coerces the named columns, each on its
    own. *)
Lemma coerce_fold_map (l : list string) :
  forall d,
    distinct (columns d) = true ->
    coerce_fold l d =
    map (fun x => if mem (name x) l then coerce_series x else x) d.
Proof.
  induction l as [|c t IH]; intros d Hd.
  - simpl. symmetry. apply map_id.
  - rewrite coerce_fold_cons.
    destruct (lookup c d) as [s|] eqn:Hl.
    + destruct (lookup_name c d s Hl) as [Hn Hs].
      rewrite (assign_map c (coerce_series s) d Hd
                 (lookup_Some_mem c d s Hl))
        by (rewrite coerce_series_name; exact Hn).
      rewrite IH.
      * rewrite map_map. apply map_ext_in. intros x Hx.
        simpl mem.
        destruct (String.eqb_spec (name x) c) as [Hc|Hc].
        -- assert (x = s).
           { rewrite <- Hc in Hl.
             rewrite (lookup_distinct d x Hd Hx) in Hl. congruence. }
           subst x. rewrite coerce_series_name, coerce_series_idem.
           destruct (mem (name s) t); reflexivity.
        -- reflexivity.
      * rewrite columns_map; [exact Hd|].
        intros x. destruct (String.eqb_spec (name x) c) as [Hc|Hc];
          [rewrite coerce_series_name; congruence | reflexivity].
    + rewrite IH by exact Hd. apply map_ext_in. intros x Hx.
      simpl mem. destruct (String.eqb_spec (name x) c) as [Hc|Hc];
        [|reflexivity].
      rewrite <- Hc, (lookup_distinct d x Hd Hx) in Hl. discriminate.
Qed.

Lemma coerced_map (d : frame) :
  distinct (columns d) = true -> coerced d = map coerce_series d.
Proof.
  intros Hd. unfold coerced. rewrite coerce_fold_map by exact Hd.
  apply map_ext_in. intros x Hx.
  destruct (mem (name x) (select_dtypes DObject d)) eqn:Hm; [reflexivity|].
  symmetry. apply coerce_series_other. intros Hk.
  assert (In (name x) (select_dtypes DObject d)).
  { unfold select_dtypes, columns. apply in_map. apply filter_In.
    split; [exact Hx | rewrite Hk; reflexivity]. }
  apply mem_In in H. congruence.
Qed.

End LoopFacts.

(** ** Programs that only add to the page *)

Section EmitFacts.
Context {N : Numeric}.

Lemma emits_ret (A : Type) P Q (R : A -> Prop) (d : frame) (a : A) :
  R a -> emits P Q R d (ret a).
Proof.
  intros Ha. exists (Ok a), []. repeat split; auto.
  intros u. unfold ret. rewrite app_nil_r. reflexivity.
Qed.

Lemma emits_raise (A : Type) P (Q : exn -> Prop) (R : A -> Prop) (d : frame)
  (e : exn) :
  Q e -> emits P Q R d (raise e).
Proof.
  intros He. exists (Raised e), []. repeat split; auto.
  intros u. unfold raise. rewrite app_nil_r. reflexivity.
Qed.

Lemma emits_show (P : element -> Prop) Q (d : frame) (e : element) :
  P e -> emits P Q (fun _ : unit => True) d (show e).
Proof.
  intros He. exists (Ok tt), [e]. repeat split; auto.
Qed.

Lemma emits_get_data P Q (d : frame) :
  emits P Q (fun x => x = d) d get_data.
Proof.
  exists (Ok d), []. repeat split; auto.
  intros u. unfold get_data. simpl. rewrite app_nil_r. reflexivity.
Qed.

Lemma emits_bind (A B : Type) P Q (R : A -> Prop) (R' : B -> Prop)
  (d : frame) (m : M A) (k : A -> M B) :
  emits P Q R d m ->
  (forall a, R a -> emits P Q R' d (k a)) ->
  emits P Q R' d (bind m k).
Proof.
  intros [r [es [Hm [Hes Hr]]]] Hk.
  destruct r as [a|e].
  - destruct (Hk a Hr) as [r' [es' [Hk' [Hes' Hr']]]].
    exists r', (es ++ es')%list. repeat split.
    + intros u. unfold bind. rewrite Hm, Hk', app_assoc. reflexivity.
    + apply Forall_app. split; assumption.
    + exact Hr'.
  - exists (Raised e), es. repeat split; auto.
    intros u. unfold bind. rewrite Hm. reflexivity.
Qed.

Lemma emits_getitem P (Q : exn -> Prop) (d : frame) (c : string) :
  mem c (columns d) = true ->
  emits P Q (fun s => name s = c) d (getitem c).
Proof.
  intros Hc. destruct (lookup_mem c d Hc) as [s Hs].
  exists (Ok s), []. repeat split; auto.
  - intros u. unfold getitem. simpl. rewrite Hs, app_nil_r. reflexivity.
  - apply (lookup_name c d s Hs).
Qed.

Lemma lookup_all_columns (names : list string) (d : frame) :
  (forall c, In c names -> mem c (columns d) = true) ->
  exists sub, lookup_all names d = Some sub /\ columns sub = names.
Proof.
  induction names as [|c t IH]; intros Hin.
  - exists []. split; reflexivity.
  - destruct (lookup_mem c d (Hin c (or_introl eq_refl))) as [s Hs].
    destruct IH as [sub [Hsub Hcols]].
    { intros c' Hc'. apply Hin. right. exact Hc'. }
    exists (s :: sub). simpl. rewrite Hs, Hsub. split; [reflexivity|].
    rewrite Hcols. f_equal. apply (lookup_name c d s Hs).
Qed.

Lemma emits_getitems P (Q : exn -> Prop) (d : frame) (names : list string) :
  (forall c, In c names -> mem c (columns d) = true) ->
  emits P Q (fun sub => columns sub = names) d (getitems names).
Proof.
  intros Hin. destruct (lookup_all_columns names d Hin) as [sub [Hs Hc]].
  exists (Ok sub), []. repeat split; auto.
  intros u. unfold getitems. simpl. rewrite Hs, app_nil_r. reflexivity.
Qed.

(** A multiselect either raises the Streamlit exception or returns names
    taken from its options. *)
Lemma emits_multiselect (P : element -> Prop) (Q : exn -> Prop) (d : frame)
  (label : string) (options default : list string)
  (chosen : option (list string)) :
  P (Multiselect label options default) ->
  (forall msg, Q (StreamlitAPIException msg)) ->
  emits P Q (fun sel => forall c, In c sel -> In c options) d
    (multiselect label options default chosen).
Proof.
  intros HP HQ. unfold multiselect.
  destruct (forallb (fun d0 => mem d0 options) default) eqn:Hd.
  - eapply emits_bind; [apply emits_show; exact HP|].
    intros _ _. apply emits_ret.
    intros c Hc. destruct chosen as [sel|].
    + apply filter_In in Hc. apply mem_In. tauto.
    + rewrite forallb_forall in Hd. apply mem_In. auto.
  - apply emits_raise. apply HQ.
Qed.

Lemma emits_slider (P : element -> Prop) (Q : exn -> Prop) (d : frame)
  (label : string) (lo hi v : Z) (chosen : option Z) :
  P (Slider label lo hi v) ->
  emits P Q (fun _ => True) d (slider label lo hi v chosen).
Proof.
  intros HP. unfold slider.
  eapply emits_bind; [apply emits_show; exact HP|].
  intros _ _. apply emits_ret. exact I.
Qed.

End EmitFacts.

(** ** The chart section *)

Section ChartFacts.
Context {N : Numeric}.

Ltac plain_element := split; reflexivity.

Ltac show_plain :=
  eapply emits_bind; [apply emits_show; plain_element | intros _ _].

Lemma columns_exist_sub (d sub : frame) (names : list string) :
  columns sub = names ->
  (forall c, In c names -> mem c (columns d) = true) ->
  forallb (fun c => mem c (columns d)) (columns sub) = true.
Proof.
  intros -> Hin. apply forallb_forall. intros c Hc. apply Hin. exact Hc.
Qed.

Lemma line_chart_emits (d : frame) (s : session) :
  emits (chart_element d) no_KeyError (fun _ => True) d
    (line_chart_section (select_dtypes DNumber d) s).
Proof.
  unfold line_chart_section. show_plain.
  eapply emits_bind.
  { apply emits_multiselect; [plain_element | reflexivity]. }
  intros sel Hsel. destruct sel as [|c0 t0].
  - apply emits_show. plain_element.
  - assert (Hin : forall c, In c (c0 :: t0) -> mem c (columns d) = true).
    { intros c Hc. apply (select_dtypes_columns DNumber). auto. }
    eapply emits_bind; [apply emits_getitems; exact Hin|].
    intros sub Hsub. apply emits_show. split; [|reflexivity].
    apply (columns_exist_sub d sub _ Hsub Hin).
Qed.

Lemma histogram_emits (d : frame) (s : session) :
  emits (chart_element d) no_KeyError (fun _ => True) d (histogram_section s).
Proof.
  unfold histogram_section.
  eapply emits_bind; [apply emits_get_data|]. intros df ->.
  destruct (mem "GHI" (columns d)) eqn:Hg.
  - show_plain.
    eapply emits_bind; [apply emits_slider; plain_element|].
    intros bins _.
    eapply emits_bind; [apply emits_getitem; exact Hg|].
    intros ghi Hn. apply emits_show. split; [|reflexivity].
    unfold columns_exist. simpl. rewrite Hn, Hg. reflexivity.
  - apply emits_show. plain_element.
Qed.

Lemma correlation_emits (d : frame) (s : session) :
  emits (chart_element d) no_KeyError (fun _ => True) d
    (correlation_section (select_dtypes DNumber d) s).
Proof.
  unfold correlation_section. show_plain.
  eapply emits_bind.
  { apply emits_multiselect; [plain_element | reflexivity]. }
  intros sel Hsel. destruct sel as [|c0 t0].
  - apply emits_show. plain_element.
  - assert (Hin : forall c, In c (c0 :: t0) -> mem c (columns d) = true).
    { intros c Hc. apply (select_dtypes_columns DNumber). auto. }
    eapply emits_bind; [apply emits_getitems; exact Hin|].
    intros sub Hsub. apply emits_show. split; [|reflexivity].
    apply (columns_exist_sub d sub _ Hsub Hin).
Qed.

Lemma wind_emits (d : frame) :
  emits (chart_element d) no_KeyError (fun _ => True) d wind_section.
Proof.
  unfold wind_section.
  eapply emits_bind; [apply emits_get_data|]. intros df ->.
  destruct (mem "WD" (columns d)) eqn:Hwd; simpl;
    [destruct (mem "WS" (columns d)) eqn:Hws|]; simpl.
  - show_plain.
    eapply emits_bind; [apply emits_getitem; exact Hwd|].
    intros wd Hn.
    eapply emits_bind; [apply emits_getitem; exact Hws|].
    intros ws Hm. apply emits_show. split; [|reflexivity].
    unfold columns_exist. simpl. rewrite Hn, Hm, Hwd, Hws. reflexivity.
  - apply emits_show. plain_element.
  - apply emits_show. plain_element.
Qed.

(** The chart section never changes [data], raises no KeyError, and every
    chart it renders draws columns the frame has. *)
Lemma eda_emits (d : frame) (s : session) :
  emits (chart_element d) no_KeyError (fun _ => True) d (eda s).
Proof.
  unfold eda. show_plain.
  eapply emits_bind; [apply emits_get_data|]. intros df ->.
  eapply emits_bind; [apply line_chart_emits|]. intros _ _.
  eapply emits_bind; [apply histogram_emits|]. intros _ _.
  eapply emits_bind; [apply correlation_emits|]. intros _ _.
  apply wind_emits.
Qed.

End ChartFacts.

(** ** The cleaning section and the whole run *)

Section RunFacts.
Context {N : Numeric}.

Lemma quality_check_run (f : frame) (s : session) (u : list element) :
  quality_check s (mkWorld f u) =
  (Ok tt, mkWorld (handled f s) (u ++ missing_ui f ++ strategy_ui f s)).
Proof.
  unfold quality_check, handled, missing_ui, strategy_ui, has_missing,
    radio, bind, show, get_data, inplace, ret.
  cbn [data ui fst snd].
  fold radio_options. fold (chosen_strategy s).
  destruct (0 <? total (isnull_sum f)).
  - destruct (String.eqb (chosen_strategy s) "Forward fill");
      [|destruct (String.eqb (chosen_strategy s)
                   "Drop rows with missing values")];
      cbn [data ui]; repeat rewrite <- app_assoc; reflexivity.
  - cbn [data ui]. repeat rewrite <- app_assoc. reflexivity.
Qed.

(** The cleaning section never raises; it leaves the handled and then coerced
    frame in [data], and the page grown by the elements of its stages. *)
Lemma cleaning_run (f : frame) (s : session) (d0 : frame) (u : list element) :
  cleaning f s (mkWorld d0 u) =
  (Ok tt,
   mkWorld (coerced (handled f s))
     (u ++ load_ui f ++ overview_ui f ++ missing_ui f ++ strategy_ui f s ++
      dtypes_ui (handled f s) ++ preview_ui (coerced (handled f s)) s)).
Proof.
  unfold cleaning.
  unfold bind at 1. unfold set_data at 1. cbn [data ui].
  unfold bind at 1. unfold show at 1. cbn [data ui].
  unfold bind at 1. unfold get_data at 1. cbn [data ui].
  unfold bind at 1. unfold show at 1. cbn [data ui].
  unfold bind at 1. unfold show at 1. cbn [data ui].
  unfold bind at 1. unfold get_data at 1. cbn [data ui].
  unfold bind at 1. unfold show at 1. cbn [data ui].
  unfold bind at 1. unfold show at 1. cbn [data ui].
  unfold bind at 1. rewrite quality_check_run.
  unfold bind at 1. unfold show at 1. cbn [data ui].
  unfold bind at 1. unfold get_data at 1. cbn [data ui].
  unfold bind at 1. unfold show at 1. cbn [data ui].
  unfold bind at 1. rewrite coerce_objects_run.
  unfold bind at 1. unfold show at 1. cbn [data ui].
  unfold sidebar_checkbox, bind, show, ret, get_data. cbn [data ui].
  unfold load_ui, overview_ui, dtypes_ui, preview_ui.
  destruct (show_cleaned s); cbn [data ui];
    repeat rewrite <- app_assoc; reflexivity.
Qed.

(** The run on an uploaded file, stage by stage: the frame the chart section
    sees is the coerced one, and the chart section adds its elements [charts]
    after everything the cleaning section rendered. *)
Lemma run_stages (f : frame) (s : session) :
  let d1 := handled f s in
  let d2 := coerced d1 in
  exists r charts,
    (forall u, eda s (mkWorld d2 u) = (r, mkWorld d2 (u ++ charts))) /\
    Forall (chart_element d2) charts /\
    match r with Ok _ => True | Raised e => no_KeyError e end /\
    run (Some f) s =
    (r,
     mkWorld d2
       (preamble_ui ++ load_ui f ++ overview_ui f ++ missing_ui f ++
        strategy_ui f s ++ dtypes_ui d1 ++ preview_ui d2 s ++ charts ++
        match r with Ok _ => about_ui | Raised _ => [] end)).
Proof.
  intros d1 d2.
  destruct (eda_emits d2 s) as [r [charts [Heda [Hcharts Hr]]]].
  exists r, charts. repeat split; try assumption.
  unfold run, app, start.
  unfold bind at 1. unfold show at 1. cbn [data ui].
  unfold bind at 1. unfold show at 1. cbn [data ui].
  unfold bind at 1. unfold show at 1. cbn [data ui].
  unfold bind at 1. unfold show at 1. cbn [data ui].
  unfold bind at 1. rewrite cleaning_run. fold d1. fold d2.
  unfold bind at 1. rewrite Heda.
  destruct r as [[]|e].
  - unfold bind, show. cbn [data ui]. unfold preamble_ui, about_ui.
    repeat rewrite <- app_assoc. reflexivity.
  - unfold preamble_ui. repeat rewrite <- app_assoc.
    rewrite app_nil_r. reflexivity.
Qed.

(** The run without a file. *)
Lemma run_without_file (s : session) :
  run None s =
  (Ok tt,
   mkWorld []
     (preamble_ui ++
      [Info "Awaiting CSV file upload for cleaning and analysis.";
       Info "Upload a dataset to unlock EDA features."] ++ about_ui)).
Proof. reflexivity. Qed.

End RunFacts.

(** * The claims *)

Section Claims.
Context {N : Numeric}.

(** The value [last_valid] finds is a valid cell above row [i], and every
    cell between it and row [i] is missing. *)
Lemma last_valid_nearest (l : list cell) (i : nat) (v : cell) :
  last_valid l i = Some v ->
  exists j,
    j < i /\ j < length l /\ nth j l NaN = v /\ isnull v = false /\
    forall k, j < k -> k < i -> isnull (nth k l NaN) = true.
Proof.
  unfold last_valid. revert l. induction i as [|i IH]; intros l.
  - simpl. destruct l; discriminate.
  - destruct (Nat.lt_ge_cases i (length l)) as [Hi|Hi].
    + assert (Hf : firstn (S i) l = (firstn i l ++ [nth i l NaN])%list).
      { clear IH. revert i Hi. induction l as [|c t IHl]; intros i Hi;
          simpl in Hi; [lia|].
        destruct i as [|i]; [reflexivity|].
        simpl. f_equal. apply IHl. lia. }
      rewrite Hf, rev_app_distr. simpl.
      destruct (notnull (nth i l NaN)) eqn:Hn.
      * intros [= <-]. exists i.
        split; [lia|]. split; [exact Hi|]. split; [reflexivity|]. split.
        -- unfold notnull in Hn. apply negb_true_iff. exact Hn.
        -- intros k Hk1 Hk2. lia.
      * intros Hv. destruct (IH l Hv) as [j [Hj [Hjl [Hjv [Hnv Hgap]]]]].
        exists j.
        split; [lia|]. split; [exact Hjl|]. split; [exact Hjv|].
        split; [exact Hnv|].
        intros k Hk1 Hk2. destruct (Nat.eq_dec k i) as [->|Hne].
        -- unfold notnull in Hn. apply negb_false_iff. exact Hn.
        -- apply Hgap; lia.
    + assert (Hf : firstn (S i) l = firstn i l).
      { rewrite !firstn_all2 by lia. reflexivity. }
      rewrite Hf. intros Hv. destruct (IH l Hv) as [j [Hj [Hjl [Hjv [Hnv Hgap]]]]].
      exists j.
      split; [lia|]. split; [exact Hjl|]. split; [exact Hjv|].
      split; [exact Hnv|].
      intros k Hk1 Hk2. destruct (Nat.eq_dec k i) as [->|Hne].
      * rewrite nth_overflow by lia. reflexivity.
      * apply Hgap; lia.
Qed.

Lemma last_valid_none (l : list cell) (i : nat) :
  last_valid l i = None ->
  forall j, j < i -> isnull (nth j l NaN) = true.
Proof.
  unfold last_valid. intros Hnone j Hj.
  destruct (Nat.lt_ge_cases j (length l)) as [Hl|Hl].
  - assert (Hin : In (nth j l NaN) (rev (firstn i l))).
    { apply in_rev. rewrite rev_involutive.
      rewrite <- (firstn_skipn i l) at 1.
      rewrite app_nth1 by (rewrite length_firstn; lia).
      apply nth_In. rewrite length_firstn. lia. }
    pose proof (find_none _ _ Hnone _ Hin) as Hn.
    unfold notnull in Hn. apply negb_false_iff. exact Hn.
  - rewrite nth_overflow by lia. reflexivity.
Qed.

(** C4 (as amended).  On a frame as [read_csv] returns it, "Drop rows with
    missing values" keeps exactly the rows without a missing cell, unchanged
    and in order; "Forward fill" leaves every non-missing cell unchanged,
    gives a missing cell the most recent non-missing value above it in its
    column when there is one, and leaves it missing when there is none. *)
Theorem cleaning_strategies (df : frame) :
  rectangular df = true ->
  rows (dropna df) = filter (forallb notnull) (rows df) /\
  forall c s i,
    lookup c df = Some s ->
    i < length (values s) ->
    exists s',
      lookup c (ffill df) = Some s' /\
      (isnull (cell_at i s) = false -> cell_at i s' = cell_at i s) /\
      (isnull (cell_at i s) = true ->
       (exists j,
          j < i /\ isnull (cell_at j s) = false /\
          (forall k, j < k -> k < i -> isnull (cell_at k s) = true) /\
          cell_at i s' = cell_at j s) \/
       ((forall j, j < i -> isnull (cell_at j s) = true) /\
        cell_at i s' = NaN)).
Proof.
  intros Hr. split; [apply rows_dropna; exact Hr|].
  intros c s i Hl Hi. exists (ffill_series s).
  split; [rewrite lookup_ffill, Hl; reflexivity|].
  split; [apply ffill_keeps_valid|].
  intros Hnull. rewrite (ffill_cell s i Hi), Hnull.
  destruct (last_valid (values s) i) as [v|] eqn:Hv.
  - left. destruct (last_valid_nearest _ _ _ Hv)
      as [j [Hj [_ [Hjv [Hnv Hgap]]]]].
    exists j. unfold cell_at. rewrite Hjv. auto.
  - right. split; [|reflexivity].
    intros j Hj. apply (last_valid_none _ _ Hv j Hj).
Qed.

(** C7.  Filling, dropping and coercing update [data] and nothing else.
    Forward fill keeps the columns, their dtypes, the number of rows and every
    non-missing cell; dropping keeps the columns and their dtypes, and the
    rows that survive are rows of the frame, unchanged; coercion keeps the
    column names and every column that is not of object dtype. *)
Theorem frame_effects (df : frame) (u : list element) :
  well_formed df = true ->
  (inplace ffill (mkWorld df u) = (Ok tt, mkWorld (ffill df) u) /\
   dtypes (ffill df) = dtypes df /\
   nrows (ffill df) = nrows df /\
   forall c s,
     lookup c df = Some s ->
     exists s',
       lookup c (ffill df) = Some s' /\
       length (values s') = length (values s) /\
       forall i, isnull (cell_at i s) = false -> cell_at i s' = cell_at i s)
  /\
  (inplace dropna (mkWorld df u) = (Ok tt, mkWorld (dropna df) u) /\
   dtypes (dropna df) = dtypes df /\
   rows (dropna df) = filter (forallb notnull) (rows df))
  /\
  (coerce_objects (mkWorld df u) = (Ok tt, mkWorld (coerced df) u) /\
   columns (coerced df) = columns df /\
   forall c s,
     lookup c df = Some s -> kind s <> DObject ->
     lookup c (coerced df) = Some s).
Proof.
  intros Hwf. unfold well_formed in Hwf.
  apply andb_true_iff in Hwf. destruct Hwf as [Hr Hd].
  split; [|split].
  - split; [reflexivity|]. split; [apply dtypes_ffill|].
    split; [apply nrows_ffill|].
    intros c s Hl. exists (ffill_series s). split; [|split].
    + rewrite lookup_ffill, Hl. reflexivity.
    + simpl. apply pad_length.
    + intros i. apply ffill_keeps_valid.
  - split; [reflexivity|]. split; [apply dtypes_dropna|].
    apply rows_dropna. exact Hr.
  - split; [apply coerce_objects_run|]. split; [apply columns_coerced|].
    intros c s Hl Hk. rewrite coerced_map by exact Hd.
    rewrite lookup_map by apply coerce_series_name.
    rewrite Hl. simpl. rewrite coerce_series_other by exact Hk. reflexivity.
Qed.


(** C9.  For an object column of a frame with distinct names, the conversion
    with [errors='coerce'] returns a column, so the loop body is its [try]
    block alone and the [except ValueError] block never runs; the column the
    loop leaves is not of object dtype and holds no string, and an entry that
    did not parse is NaN in a numeric column.  That column is the one the
    loop body stores in [data] under the same name, and the one the whole
    loop leaves there. *)
Theorem fallback_unreachable (df : frame) (u : list element) (c : string)
  (s : series) :
  distinct (columns df) = true ->
  lookup c df = Some s ->
  kind s = DObject ->
  (exists v, to_numeric ErrorsCoerce s = Ok v) /\
  coerce_column c (mkWorld df u) = convert_column c (mkWorld df u) /\
  fst (convert_column c (mkWorld df u)) = Ok tt /\
  exists s',
    lookup c (coerced df) = Some s' /\
    to_numeric ErrorsCoerce s = Ok s' /\
    kind s' <> DObject /\
    (forall t, ~ In (Str t) (values s')) /\
    (forall i t,
       i < length (values s) ->
       cell_at i s = Str t ->
       parse_num t = None ->
       kind s' = DNumber /\ cell_at i s' = NaN) /\
    coerce_column c (mkWorld df u) = (Ok tt, mkWorld (assign c s' df) u) /\
    lookup c (data (snd (coerce_column c (mkWorld df u)))) = Some s' /\
    coerce_objects (mkWorld df u) = (Ok tt, mkWorld (coerced df) u).
Proof.
  intros Hd Hl Hk.
  split; [exists (coerce_series s); apply to_numeric_coerce|].
  assert (Hconv : convert_column c (mkWorld df u) =
                  (Ok tt, mkWorld (assign c (coerce_series s) df) u)).
  { unfold convert_column, bind, getitem, lift, setitem. simpl.
    rewrite Hl, to_numeric_coerce. reflexivity. }
  split; [rewrite Hconv; apply coerce_column_step; exact Hl|].
  split; [rewrite Hconv; reflexivity|].
  exists (coerce_series s).
  split.
  { rewrite coerced_map by exact Hd.
    rewrite lookup_map by apply coerce_series_name.
    rewrite Hl. reflexivity. }
  split; [apply to_numeric_coerce|].
  split; [apply coerce_series_kind|].
  split.
  - intros t Hin. rewrite coerce_series_object in Hin by exact Hk.
    simpl in Hin.
    assert (Hno : forall x, In x (map coerce_cell (values s)) -> x <> Str t).
    { intros x Hx. apply in_map_iff in Hx. destruct Hx as [y [<- _]].
      apply coerce_cell_not_str. }
    destruct (map coerce_cell (values s)) as [|c0 l0]; [contradiction|].
    destruct (forallb is_boolean (c0 :: l0)); simpl values in Hin.
    + exact (Hno _ Hin eq_refl).
    + change (In (Str t) (map as_number (c0 :: l0))) in Hin.
      apply in_map_iff in Hin. destruct Hin as [y [Hy Hin]].
      destruct y; simpl in Hy; try discriminate.
      exact (Hno _ Hin Hy).
  - split; [|split; [|split]].
    + intros i t Hi Hc Hp. apply (coerce_unparseable s i t); assumption.
    + apply coerce_column_step. exact Hl.
    + rewrite (coerce_column_step c s df u Hl). cbn [snd data].
      apply lookup_assign. rewrite coerce_series_name.
      apply (lookup_name c df s Hl).
    + apply coerce_objects_run.
Qed.

(** C10.  Whenever the numeric parser rejects some string [t], there is a
    file on which the user picks "Drop rows with missing values", the rows
    with missing values are dropped, the run completes, and the frame left in
    [data] has a missing value all the same: the NaN that coercion put in
    place of [t]. *)
Theorem drop_then_coerce_leaves_missing (t : string) (x : num) :
  parse_num t = None ->
  exists (f : frame) (s : session),
    well_formed f = true /\
    has_missing f = true /\
    chosen_strategy s = "Drop rows with missing values" /\
    has_missing (dropna f) = false /\
    fst (run (Some f) s) = Ok tt /\
    In (Success "Rows with missing values have been dropped!")
       (ui (snd (run (Some f) s))) /\
    has_missing (data (snd (run (Some f) s))) = true.
Proof.
  intros Hp.
  pose (f := [mkSeries "GHI" DNumber [Num x; NaN];
              mkSeries "DNI" DNumber [Num x; Num x];
              mkSeries "DHI" DNumber [Num x; Num x];
              mkSeries "site" DObject [Str t; Str t]] : frame).
  pose (s := mkSession 2 false None None None).
  assert (Hrun : exists w,
    run (Some f) s = (Ok tt, w) /\
    data w = [mkSeries "GHI" DNumber [Num x];
              mkSeries "DNI" DNumber [Num x];
              mkSeries "DHI" DNumber [Num x];
              mkSeries "site" DNumber [NaN]] /\
    In (Success "Rows with missing values have been dropped!") (ui w)).
  { eexists. split; [|split].
    - cbv -[parse_num]. rewrite Hp. cbv -[parse_num]. reflexivity.
    - reflexivity.
    - simpl. repeat (try (left; reflexivity); right). }
  destruct Hrun as [w [Hrun [Hdata Hui]]].
  exists f, s.
  split; [reflexivity|]. split; [reflexivity|]. split; [reflexivity|].
  split; [reflexivity|].
  rewrite Hrun. simpl. split; [reflexivity|]. split; [exact Hui|].
  rewrite Hdata. reflexivity.
Qed.


Lemma columns_handled (f : frame) (s : session) :
  columns (handled f s) = columns f.
Proof.
  unfold handled. destruct (has_missing f); [|reflexivity].
  destruct (String.eqb (chosen_strategy s) "Forward fill");
    [apply columns_ffill|].
  destruct (String.eqb (chosen_strategy s) "Drop rows with missing values");
    [apply columns_dropna | reflexivity].
Qed.

(** What the stages before the charts render: no warning and no chart. *)
Lemma stages_plain (f d1 d2 : frame) (s : session) :
  Forall (fun e => is_warning e = false /\ chart_columns e = [])
    (preamble_ui ++ load_ui f ++ overview_ui f ++ missing_ui f ++
     strategy_ui f s ++ dtypes_ui d1 ++ preview_ui d2 s).
Proof.
  unfold preamble_ui, load_ui, overview_ui, missing_ui, strategy_ui,
    dtypes_ui, preview_ui.
  destruct (has_missing f);
    destruct (String.eqb (chosen_strategy s) "Forward fill");
    destruct (String.eqb (chosen_strategy s) "Drop rows with missing values");
    destruct (show_cleaned s); simpl;
    repeat (constructor; [split; reflexivity|]); constructor.
Qed.

(** When one of the three default names is not a numeric column, the chart
    section stops at the first multiselect. *)
Lemma eda_default_missing (d : frame) (s : session) (u : list element) :
  forallb (fun c => mem c (select_dtypes DNumber d)) ["GHI"; "DNI"; "DHI"]
  = false ->
  eda s (mkWorld d u) =
  (Raised (StreamlitAPIException
             "Every Multiselect default value must exist in options"),
   mkWorld d (u ++ [Header "Exploratory Data Analysis (EDA)";
                    Subheader "Solar Radiation Trends"])).
Proof.
  intros Hdef.
  unfold eda, line_chart_section, multiselect.
  unfold bind at 1. unfold show at 1. cbn [data ui].
  unfold bind at 1. unfold get_data at 1. cbn [data ui].
  unfold bind at 1. unfold bind at 1. unfold show at 1. cbn [data ui].
  unfold bind at 1. rewrite Hdef. unfold raise.
  rewrite <- app_assoc. reflexivity.
Qed.

(** C1 (what the code does when GHI is absent).  On every file without a GHI
    column the run ends in the Streamlit exception raised by the line-chart
    multiselect, whose default names GHI; no warning is on the page, although
    the histogram section by itself would have rendered one. *)
Theorem missing_ghi_raises (f : frame) (s : session) :
  mem "GHI" (columns f) = false ->
  fst (run (Some f) s) =
    Raised (StreamlitAPIException
              "Every Multiselect default value must exist in options") /\
  Forall (fun e => is_warning e = false) (ui (snd (run (Some f) s))) /\
  forall u,
    histogram_section s (mkWorld (data (snd (run (Some f) s))) u) =
    (Ok tt,
     mkWorld (data (snd (run (Some f) s)))
       (u ++ [Warning "GHI column is missing in the dataset!"])).
Proof.
  intros Hg.
  destruct (run_stages f s) as [r [charts [Heda [_ [_ Hrun]]]]].
  set (d2 := coerced (handled f s)) in *.
  assert (Hcols : mem "GHI" (columns d2) = false).
  { unfold d2. rewrite columns_coerced, columns_handled. exact Hg. }
  assert (Hdef : forallb (fun c => mem c (select_dtypes DNumber d2))
                   ["GHI"; "DNI"; "DHI"] = false).
  { simpl. destruct (mem "GHI" (select_dtypes DNumber d2)) eqn:Hm;
      [|reflexivity].
    apply mem_In in Hm. apply select_dtypes_columns in Hm. congruence. }
  pose proof (eda_default_missing d2 s [] Hdef) as Hraise.
  rewrite (Heda []) in Hraise. simpl in Hraise.
  injection Hraise as Hr Hcharts. subst r charts.
  rewrite Hrun. cbn [fst snd data ui].
  split; [reflexivity|]. split.
  - repeat rewrite app_assoc. apply Forall_app. split.
    + apply Forall_app. split.
      * repeat rewrite <- app_assoc.
        eapply Forall_impl; [|apply stages_plain]. simpl. tauto.
      * repeat constructor.
    + constructor.
  - intros u. unfold histogram_section, bind, get_data, show.
    cbn [data ui]. rewrite Hcols. reflexivity.
Qed.

(** C3.  Whatever is uploaded and whatever the user has set, every chart on
    the page draws columns of the frame in [data], and the run never ends in
    a KeyError. *)
Theorem chart_columns_exist (uploaded_file : option frame) (s : session) :
  (forall e c,
     In e (ui (snd (run uploaded_file s))) ->
     In c (chart_columns e) ->
     In c (columns (data (snd (run uploaded_file s))))) /\
  (forall k, fst (run uploaded_file s) <> Raised (KeyError k)).
Proof.
  destruct uploaded_file as [f|].
  - destruct (run_stages f s) as [r [charts [_ [Hcharts [Hr Hrun]]]]].
    rewrite Hrun. cbn [fst snd data ui]. split.
    + intros e c He Hc.
      repeat rewrite app_assoc in He.
      apply in_app_or in He. destruct He as [He|He];
        [apply in_app_or in He; destruct He as [He|He]|].
      * repeat rewrite <- app_assoc in He.
        pose proof (stages_plain f (handled f s) (coerced (handled f s)) s)
          as Hplain.
        rewrite Forall_forall in Hplain.
        destruct (Hplain e He) as [_ Hnone].
        rewrite Hnone in Hc. contradiction.
      * rewrite Forall_forall in Hcharts.
        destruct (Hcharts e He) as [Hex _].
        unfold columns_exist in Hex. rewrite forallb_forall in Hex.
        apply mem_In. apply Hex. exact Hc.
      * destruct r as [[]|x]; [|contradiction].
        destruct He as [<-|[<-|[]]]; contradiction.
    + intros k Hk. subst r. discriminate.
  - rewrite run_without_file. cbn [fst snd data ui]. split.
    + intros e c He Hc. simpl in He.
      repeat (destruct He as [<-|He]; [contradiction|]). contradiction.
    + discriminate.
Qed.


Lemma filter_none (A : Type) (p : A -> bool) (l : list A) :
  Forall (fun x => p x = false) l -> filter p l = [].
Proof.
  induction 1 as [|x t Hx _ IH]; simpl; [reflexivity|].
  rewrite Hx. exact IH.
Qed.

Lemma total_positive (counts : list (string * nat)) :
  0 < total counts <-> exists p, In p counts /\ 0 < snd p.
Proof.
  induction counts as [|q t IH]; simpl.
  - split; [lia | intros [p [[] _]]].
  - split.
    + intros H. destruct (Nat.eq_dec (snd q) 0) as [Hz|Hz].
      * destruct (proj1 IH) as [p [Hp Hpos]]; [lia|]. exists p. auto.
      * exists q. split; [auto | lia].
    + intros [p [[->|Hp] Hpos]]; [lia|].
      assert (0 < total t) by (apply IH; exists p; auto). lia.
Qed.

Lemma null_count_positive (s : series) :
  0 < null_count s <-> In NaN (values s).
Proof.
  unfold null_count. split.
  - intros H. destruct (filter isnull (values s)) as [|c t] eqn:Hf;
      [simpl in H; lia|].
    assert (Hc : In c (filter isnull (values s))) by (rewrite Hf; left; auto).
    apply filter_In in Hc. destruct Hc as [Hin Hnull].
    destruct c; try discriminate. exact Hin.
  - intros Hin.
    assert (Hc : In NaN (filter isnull (values s))).
    { apply filter_In. split; [exact Hin | reflexivity]. }
    destruct (filter isnull (values s)); [contradiction | simpl; lia].
Qed.

(** The frame has a missing value exactly when some column holds a NaN. *)
Lemma has_missing_iff (f : frame) :
  has_missing f = true <-> exists s, In s f /\ In NaN (values s).
Proof.
  unfold has_missing. rewrite Nat.ltb_lt, total_positive. split.
  - intros [p [Hp Hpos]]. unfold isnull_sum in Hp.
    apply in_map_iff in Hp. destruct Hp as [s [<- Hs]].
    exists s. split; [exact Hs | apply null_count_positive; exact Hpos].
  - intros [s [Hs Hnan]]. exists (name s, null_count s). split.
    + unfold isnull_sum. apply in_map_iff. exists s. auto.
    + apply null_count_positive. exact Hnan.
Qed.

(** C5.  Of the elements of the missing-value prompt and its alternative, the
    page of a run shows the report and the radio control, and no "No missing
    values detected!", when the file has a missing value, and only "No
    missing values detected!" when it has none; a file has a missing value
    exactly when some column holds a NaN, and the report lists exactly the
    columns with a positive count of missing cells. *)
Theorem missing_prompt (f : frame) (s : session) :
  filter quality_element (ui (snd (run (Some f) s))) =
    (if has_missing f then
       [Write [VText "Missing values in each column:"];
        Write [VCounts (positive (isnull_sum f))];
        Radio "Select how to handle missing values:" radio_options]
     else [Write [VText "No missing values detected!"]]) /\
  (has_missing f = true <-> exists c, In c f /\ In NaN (values c)) /\
  (forall c n,
     In (c, n) (positive (isnull_sum f)) <->
     0 < n /\ exists col, In col f /\ name col = c /\ null_count col = n).
Proof.
  split; [|split].
  - destruct (run_stages f s) as [r [charts [_ [Hcharts [_ Hrun]]]]].
    rewrite Hrun. cbn [snd ui].
    assert (Hnone : filter quality_element charts = []).
    { apply filter_none. eapply Forall_impl; [|exact Hcharts].
      intros e [_ He]. exact He. }
    repeat rewrite filter_app. rewrite Hnone.
    assert (Habout : filter quality_element
                       match r with Ok _ => about_ui | Raised _ => [] end
                     = []).
    { destruct r; reflexivity. }
    rewrite Habout.
    unfold preamble_ui, load_ui, overview_ui, missing_ui, strategy_ui,
      dtypes_ui, preview_ui.
    destruct (has_missing f);
      destruct (String.eqb (chosen_strategy s) "Forward fill");
      destruct (String.eqb (chosen_strategy s)
                  "Drop rows with missing values");
      destruct (show_cleaned s); reflexivity.
  - apply has_missing_iff.
  - intros c n. unfold positive, isnull_sum. rewrite filter_In. simpl.
    rewrite Nat.ltb_lt, in_map_iff. split.
    + intros [[col [Heq Hin]] Hpos]. injection Heq as Hc Hn.
      split; [exact Hpos|]. exists col. auto.
    + intros [Hpos [col [Hin [Hc Hn]]]]. split; [|exact Hpos].
      exists col. subst. auto.
Qed.

(** C8.  On a frame as [read_csv] returns it with both a WD and a WS column,
    the wind section renders one polar scatter; it has one point per row,
    the point of row [i] has the WS cell of the row as radius and
    [np.deg2rad] of its WD cell as angle, which for a number [x] is
    [x * (pi/180)]. *)
Theorem wind_scatter_points (d : frame) (u : list element) :
  rectangular d = true ->
  mem "WD" (columns d) = true ->
  mem "WS" (columns d) = true ->
  exists wd ws,
    lookup "WD" d = Some wd /\
    lookup "WS" d = Some ws /\
    wind_section (mkWorld d u) =
    (Ok tt,
     mkWorld d
       (u ++ [Subheader "Wind Analysis";
              Pyplot (PolarScatter (deg2rad_series wd) ws)])) /\
    length (scatter_points (deg2rad_series wd) ws) = nrows d /\
    forall i,
      i < nrows d ->
      nth i (scatter_points (deg2rad_series wd) ws) (NaN, NaN) =
      (deg2rad_cell (cell_at i wd), cell_at i ws) /\
      forall x, cell_at i wd = Num x ->
        fst (nth i (scatter_points (deg2rad_series wd) ws) (NaN, NaN)) =
        Num (mul x pi_over_180).
Proof.
  intros Hr Hwd Hws.
  destruct (lookup_mem "WD" d Hwd) as [wd Hlwd].
  destruct (lookup_mem "WS" d Hws) as [ws Hlws].
  exists wd, ws. split; [exact Hlwd|]. split; [exact Hlws|].
  assert (Hlen_wd : length (values wd) = nrows d).
  { apply rectangular_length; [exact Hr | apply (lookup_name "WD" d wd Hlwd)]. }
  assert (Hlen_ws : length (values ws) = nrows d).
  { apply rectangular_length; [exact Hr | apply (lookup_name "WS" d ws Hlws)]. }
  assert (Hnth : forall i,
    nth i (scatter_points (deg2rad_series wd) ws) (NaN, NaN) =
    (deg2rad_cell (cell_at i wd), cell_at i ws)).
  { intros i. unfold scatter_points. simpl values.
    rewrite combine_nth by (rewrite length_map; congruence).
    unfold cell_at. f_equal.
    change NaN with (deg2rad_cell NaN) at 1. apply map_nth. }
  split; [|split].
  - unfold wind_section, bind, get_data, show, getitem. cbn [data ui].
    rewrite Hwd, Hws. cbn [andb data ui]. rewrite Hlwd. cbn [data ui].
    rewrite Hlws. cbn [data ui]. rewrite <- app_assoc. reflexivity.
  - unfold scatter_points. simpl values.
    rewrite length_combine, length_map, Hlen_wd, Hlen_ws.
    apply Nat.min_id.
  - intros i Hi. split; [apply Hnth|].
    intros x Hx. rewrite Hnth, Hx. reflexivity.
Qed.

End Claims.

(** * More about the chart section *)

Section ChartRuns.
Context {N : Numeric}.

Lemma mem_self (l : list string) : forallb (fun c => mem c l) l = true.
Proof. apply forallb_forall. intros c Hc. apply mem_In. exact Hc. Qed.

Lemma lookup_not_mem (c : string) (d : frame) :
  mem c (columns d) = false -> lookup c d = None.
Proof.
  intros Hm. destruct (lookup c d) as [s|] eqn:Hl; [|reflexivity].
  rewrite (lookup_Some_mem c d s Hl) in Hm. discriminate.
Qed.

Lemma selection_options (options default : list string)
  (chosen : option (list string)) :
  forallb (fun c => mem c options) default = true ->
  forall c, In c (selection options default chosen) -> In c options.
Proof.
  intros Hd c Hc. destruct chosen as [sel|]; simpl in Hc.
  - apply filter_In in Hc. apply mem_In. tauto.
  - rewrite forallb_forall in Hd. apply mem_In. auto.
Qed.

(** Indexing by names taken among the numeric columns succeeds. *)
Lemma lookup_all_numeric (names : list string) (d : frame) :
  (forall c, In c names -> In c (select_dtypes DNumber d)) ->
  lookup_all names d = Some (subframe names d) /\
  columns (subframe names d) = names.
Proof.
  intros Hin.
  destruct (lookup_all_columns names d) as [sub [Hs Hc]].
  { intros c Hc. apply (select_dtypes_columns DNumber). auto. }
  unfold subframe. rewrite Hs. auto.
Qed.

Lemma line_chart_run (d : frame) (s : session) (u : list element) :
  line_chart_section (select_dtypes DNumber d) s (mkWorld d u) =
  if defaults_valid d
  then (Ok tt, mkWorld d (u ++ line_ui d s))
  else (Raised multiselect_error,
        mkWorld d (u ++ [Subheader "Solar Radiation Trends"])).
Proof.
  unfold line_chart_section, multiselect, defaults_valid, line_ui,
    line_defaults.
  unfold bind at 1. unfold show at 1. cbn [data ui].
  unfold bind at 1.
  destruct (forallb (fun c => mem c (select_dtypes DNumber d))
              ["GHI"; "DNI"; "DHI"]) eqn:Hd; [|reflexivity].
  unfold bind at 1. unfold show at 1. unfold ret. cbn [data ui].
  fold (selection (select_dtypes DNumber d) ["GHI"; "DNI"; "DHI"]
          (line_selection s)).
  pose proof (selection_options _ _ (line_selection s) Hd) as Hsel.
  destruct (selection (select_dtypes DNumber d) ["GHI"; "DNI"; "DHI"]
              (line_selection s)) as [|c0 t0].
  - unfold show. cbn [data ui]. repeat rewrite <- app_assoc. reflexivity.
  - destruct (lookup_all_numeric (c0 :: t0) d Hsel) as [Hl _].
    unfold bind, getitems, show. cbn [data ui]. rewrite Hl. cbn [data ui].
    repeat rewrite <- app_assoc. reflexivity.
Qed.

Lemma histogram_run (d : frame) (s : session) (u : list element) :
  histogram_section s (mkWorld d u) =
  (Ok tt, mkWorld d (u ++ histogram_ui d s)).
Proof.
  unfold histogram_section, histogram_ui, slider, bins_of, ghi_warning.
  unfold bind at 1. unfold get_data at 1. cbn [data ui].
  destruct (mem "GHI" (columns d)) eqn:Hg.
  - destruct (lookup_mem "GHI" d Hg) as [ghi Hl]. rewrite Hl.
    unfold bind, show, ret, getitem. cbn [data ui]. rewrite Hl.
    cbn [data ui]. repeat rewrite <- app_assoc. reflexivity.
  - rewrite (lookup_not_mem "GHI" d Hg). reflexivity.
Qed.

Lemma correlation_run (d : frame) (s : session) (u : list element) :
  correlation_section (select_dtypes DNumber d) s (mkWorld d u) =
  (Ok tt, mkWorld d (u ++ correlation_ui d s)).
Proof.
  unfold correlation_section, multiselect, correlation_ui.
  unfold bind at 1. unfold show at 1. cbn [data ui].
  unfold bind at 1. rewrite mem_self.
  unfold bind at 1. unfold show at 1. unfold ret. cbn [data ui].
  fold (selection (select_dtypes DNumber d) (select_dtypes DNumber d)
          (corr_selection s)).
  pose proof (selection_options _ _ (corr_selection s)
                (mem_self (select_dtypes DNumber d))) as Hsel.
  destruct (selection (select_dtypes DNumber d) (select_dtypes DNumber d)
              (corr_selection s)) as [|c0 t0].
  - unfold show. cbn [data ui]. repeat rewrite <- app_assoc. reflexivity.
  - destruct (lookup_all_numeric (c0 :: t0) d Hsel) as [Hl _].
    unfold bind, getitems, show. cbn [data ui]. rewrite Hl. cbn [data ui].
    repeat rewrite <- app_assoc. reflexivity.
Qed.

Lemma wind_run (d : frame) (u : list element) :
  wind_section (mkWorld d u) = (Ok tt, mkWorld d (u ++ wind_ui d)).
Proof.
  unfold wind_section, wind_ui, wind_warning.
  unfold bind at 1. unfold get_data at 1. cbn [data ui].
  destruct (mem "WD" (columns d)) eqn:Hwd.
  - destruct (lookup_mem "WD" d Hwd) as [wd Hlwd]. rewrite Hlwd.
    destruct (mem "WS" (columns d)) eqn:Hws.
    + destruct (lookup_mem "WS" d Hws) as [ws Hlws]. rewrite Hlws.
      unfold bind, show, getitem. cbn [andb data ui].
      rewrite Hlwd. cbn [data ui]. rewrite Hlws. cbn [data ui].
      repeat rewrite <- app_assoc. reflexivity.
    + rewrite (lookup_not_mem "WS" d Hws). reflexivity.
  - rewrite (lookup_not_mem "WD" d Hwd). reflexivity.
Qed.

(** The chart section, in full. *)
Lemma eda_run (d : frame) (s : session) (u : list element) :
  eda s (mkWorld d u) =
  if defaults_valid d
  then (Ok tt, mkWorld d (u ++ charts_ui d s))
  else (Raised multiselect_error,
        mkWorld d (u ++ [Header "Exploratory Data Analysis (EDA)";
                         Subheader "Solar Radiation Trends"])).
Proof.
  unfold eda, charts_ui.
  unfold bind at 1. unfold show at 1. cbn [data ui].
  unfold bind at 1. unfold get_data at 1. cbn [data ui].
  unfold bind at 1. rewrite line_chart_run.
  destruct (defaults_valid d).
  - unfold bind at 1. rewrite histogram_run.
    unfold bind at 1. rewrite correlation_run.
    rewrite wind_run. repeat rewrite <- app_assoc. reflexivity.
  - repeat rewrite <- app_assoc. reflexivity.
Qed.

(** The run on an uploaded file, in full. *)
Lemma run_page (f : frame) (s : session) :
  run (Some f) s =
  if defaults_valid (coerced (handled f s))
  then (Ok tt,
        mkWorld (coerced (handled f s))
          (cleaning_page f s ++ charts_ui (coerced (handled f s)) s ++
           about_ui))
  else (Raised multiselect_error,
        mkWorld (coerced (handled f s))
          (cleaning_page f s ++
           [Header "Exploratory Data Analysis (EDA)";
            Subheader "Solar Radiation Trends"])).
Proof.
  unfold run, app, start, cleaning_page.
  unfold bind at 1. unfold show at 1. cbn [data ui].
  unfold bind at 1. unfold show at 1. cbn [data ui].
  unfold bind at 1. unfold show at 1. cbn [data ui].
  unfold bind at 1. unfold show at 1. cbn [data ui].
  unfold bind at 1. rewrite cleaning_run.
  unfold bind at 1. rewrite eda_run.
  destruct (defaults_valid (coerced (handled f s))).
  - unfold bind, show. cbn [data ui]. unfold preamble_ui, about_ui.
    repeat rewrite <- app_assoc. reflexivity.
  - unfold preamble_ui. repeat rewrite <- app_assoc. reflexivity.
Qed.


End ChartRuns.

(** * Properties of the chart section *)

Section ChartProperties.
Context {N : Numeric}.

Lemma select_dtypes_In (k : dtype) (d : frame) (c : string) :
  In c (select_dtypes k d) <->
  exists col, In col d /\ name col = c /\ kind col = k.
Proof.
  unfold select_dtypes, columns. rewrite in_map_iff. split.
  - intros [col [Hn Hin]]. apply filter_In in Hin. destruct Hin as [Hin Hk].
    exists col. repeat split; auto.
    destruct (kind col), k; simpl in Hk; congruence.
  - intros [col [Hin [Hn Hk]]]. exists col. split; [exact Hn|].
    apply filter_In. split; [exact Hin|]. rewrite Hk. destruct k; reflexivity.
Qed.

Lemma defaults_valid_iff (d : frame) :
  defaults_valid d = true <->
  forall c, In c line_defaults ->
    exists col, In col d /\ name col = c /\ kind col = DNumber.
Proof.
  unfold defaults_valid. rewrite forallb_forall. split.
  - intros H c Hc. apply select_dtypes_In. apply mem_In. auto.
  - intros H c Hc. apply mem_In. apply select_dtypes_In. auto.
Qed.

Lemma final_data (f : frame) (s : session) :
  data (snd (run (Some f) s)) = coerced (handled f s).
Proof.
  rewrite run_page. destruct (defaults_valid (coerced (handled f s)));
    reflexivity.
Qed.

Lemma cleaning_page_plain (f : frame) (s : session) :
  Forall (fun e => is_warning e = false /\ chart_columns e = [])
    (cleaning_page f s).
Proof. apply stages_plain. Qed.

Lemma completes_when_valid (f : frame) (s : session) :
  fst (run (Some f) s) = Ok tt <->
  defaults_valid (data (snd (run (Some f) s))) = true.
Proof.
  rewrite final_data, run_page.
  destruct (defaults_valid (coerced (handled f s))); cbn [fst];
    split; congruence.
Qed.

(** X1.  On the frame [read_csv] returned for the uploaded file, the run
    ends in the exception of the line-chart selector exactly when GHI, DNI or
    DHI is not a numeric column of the cleaned frame; the page then stops at
    the subheader of the line chart and holds no chart. *)
Theorem selector_raises_iff (f : frame) (s : session) :
  (fst (run (Some f) s) = Raised multiselect_error <->
   ~ (forall c, In c ["GHI"; "DNI"; "DHI"] ->
        exists col,
          In col (data (snd (run (Some f) s))) /\
          name col = c /\ kind col = DNumber)) /\
  (fst (run (Some f) s) = Raised multiselect_error ->
   ui (snd (run (Some f) s)) =
     (cleaning_page f s ++
      [Header "Exploratory Data Analysis (EDA)";
       Subheader "Solar Radiation Trends"])%list /\
   forall e, In e (ui (snd (run (Some f) s))) -> chart_columns e = []).
Proof.
  rewrite final_data. rewrite run_page.
  pose proof (defaults_valid_iff (coerced (handled f s))) as Hiff.
  pose proof (cleaning_page_plain f s) as Hplain.
  rewrite Forall_forall in Hplain.
  destruct (defaults_valid (coerced (handled f s))); cbn [fst snd ui].
  - split; [|discriminate].
    split; [discriminate|].
    intros H. exfalso. apply H. apply Hiff. reflexivity.
  - split.
    + split; [|reflexivity].
      intros _ H. apply Hiff in H. discriminate.
    + intros _. split; [reflexivity|].
      intros e He. apply in_app_or in He. destruct He as [He|He].
      * apply (Hplain e He).
      * destruct He as [<-|[<-|[]]]; reflexivity.
Qed.

(** X2.  The warning of line 99 is never on the page: when GHI is not a column,
    the run has already stopped at the line-chart selector. *)
Theorem ghi_warning_never_shown (uploaded_file : option frame) (s : session) :
  ~ In ghi_warning (ui (snd (run uploaded_file s))).
Proof.
  destruct uploaded_file as [f|].
  - rewrite run_page.
    pose proof (cleaning_page_plain f s) as Hplain.
    rewrite Forall_forall in Hplain.
    destruct (defaults_valid (coerced (handled f s))) eqn:Hd; cbn [snd ui];
      intros Hin; apply in_app_or in Hin; destruct Hin as [Hin|Hin];
      try (destruct (Hplain _ Hin) as [Hw _]; discriminate).
    + apply in_app_or in Hin. destruct Hin as [Hin|Hin].
      * unfold charts_ui in Hin. destruct Hin as [Hin|Hin]; [discriminate|].
        apply in_app_or in Hin. destruct Hin as [Hin|Hin].
        { unfold line_ui in Hin. apply in_app_or in Hin.
          destruct Hin as [Hin|Hin].
          - destruct Hin as [Hin|[Hin|[]]]; discriminate.
          - destruct (selection _ _ _);
              destruct Hin as [Hin|[]]; discriminate. }
        apply in_app_or in Hin. destruct Hin as [Hin|Hin].
        { unfold histogram_ui in Hin.
          assert (Hg : mem "GHI" (columns (coerced (handled f s))) = true).
          { unfold defaults_valid in Hd. rewrite forallb_forall in Hd.
            apply (select_dtypes_columns DNumber). apply mem_In.
            apply Hd. left. reflexivity. }
          destruct (lookup_mem _ _ Hg) as [ghi Hl]. rewrite Hl in Hin.
          destruct Hin as [Hin|[Hin|[Hin|[]]]]; discriminate. }
        apply in_app_or in Hin. destruct Hin as [Hin|Hin].
        { unfold correlation_ui in Hin. apply in_app_or in Hin.
          destruct Hin as [Hin|Hin].
          - destruct Hin as [Hin|[Hin|[]]]; discriminate.
          - destruct (selection _ _ _);
              destruct Hin as [Hin|[]]; discriminate. }
        unfold wind_ui in Hin.
        destruct (lookup "WD" _); [destruct (lookup "WS" _)|].
        -- destruct Hin as [Hin|[Hin|[]]]; discriminate.
        -- destruct Hin as [Hin|[]]; discriminate.
        -- destruct Hin as [Hin|[]]; discriminate.
      * destruct Hin as [Hin|[Hin|[]]]; discriminate.
    + destruct Hin as [Hin|[Hin|[]]]; discriminate.
  - rewrite run_without_file. cbn [snd ui]. simpl.
    intros Hin.
    repeat (destruct Hin as [Hin|Hin]; [discriminate|]). exact Hin.
Qed.

Lemma warning_in_line (d : frame) (s : session) (m : string) :
  In (Warning m) (line_ui d s) <->
  m = "Please select at least one column for the line chart." /\
  selection (select_dtypes DNumber d) line_defaults (line_selection s) = [].
Proof.
  unfold line_ui.
  destruct (selection (select_dtypes DNumber d) line_defaults
              (line_selection s)) as [|l0 lt]; cbn [In app]; split.
  - intros [H|[H|[H|[]]]]; try discriminate. injection H as Hm. subst m.
    split; reflexivity.
  - intros [-> _]. right. right. left. reflexivity.
  - intros [H|[H|[H|[]]]]; discriminate.
  - intros [_ H]. discriminate.
Qed.

Lemma warning_in_histogram (d : frame) (s : session) (m : string) :
  In (Warning m) (histogram_ui d s) <->
  Warning m = ghi_warning /\ lookup "GHI" d = None.
Proof.
  unfold histogram_ui.
  destruct (lookup "GHI" d) as [ghi|]; cbn [In]; split.
  - intros [H|[H|[H|[]]]]; discriminate.
  - intros [_ H]. discriminate.
  - intros [H|[]]. auto.
  - intros [H _]. auto.
Qed.

Lemma warning_in_correlation (d : frame) (s : session) (m : string) :
  In (Warning m) (correlation_ui d s) <->
  m = "Please select at least one column for correlation analysis." /\
  selection (select_dtypes DNumber d) (select_dtypes DNumber d)
    (corr_selection s) = [].
Proof.
  unfold correlation_ui.
  destruct (selection (select_dtypes DNumber d) (select_dtypes DNumber d)
              (corr_selection s)) as [|c0 ct]; cbn [In app]; split.
  - intros [H|[H|[H|[]]]]; try discriminate. injection H as Hm. subst m.
    split; reflexivity.
  - intros [-> _]. right. right. left. reflexivity.
  - intros [H|[H|[H|[]]]]; discriminate.
  - intros [_ H]. discriminate.
Qed.

Lemma warning_in_wind (d : frame) (m : string) :
  In (Warning m) (wind_ui d) <->
  Warning m = wind_warning /\ (lookup "WD" d = None \/ lookup "WS" d = None).
Proof.
  unfold wind_ui.
  destruct (lookup "WD" d) as [wd|]; [destruct (lookup "WS" d) as [ws|]|];
    cbn [In]; split.
  - intros [H|[H|[]]]; discriminate.
  - intros [_ [H|H]]; discriminate.
  - intros [H|[]]. auto.
  - intros [H _]. auto.
  - intros [H|[]]. auto.
  - intros [H _]. auto.
Qed.

(** Which warnings the chart blocks render. *)
Lemma warning_in_charts (d : frame) (s : session) (m : string) :
  In (Warning m) (charts_ui d s) <->
  (m = "Please select at least one column for the line chart." /\
   selection (select_dtypes DNumber d) line_defaults (line_selection s) = [])
  \/ (Warning m = ghi_warning /\ lookup "GHI" d = None)
  \/ (m = "Please select at least one column for correlation analysis." /\
      selection (select_dtypes DNumber d) (select_dtypes DNumber d)
        (corr_selection s) = [])
  \/ (Warning m = wind_warning /\
      (lookup "WD" d = None \/ lookup "WS" d = None)).
Proof.
  unfold charts_ui. cbn [In]. repeat rewrite in_app_iff.
  rewrite warning_in_line, warning_in_histogram, warning_in_correlation,
    warning_in_wind.
  split.
  - intros [H|H]; [discriminate | exact H].
  - intros H. right. exact H.
Qed.

(** The elements on the page of a run, by where they come from. *)
Lemma in_page (f : frame) (s : session) (e : element) :
  In e (ui (snd (run (Some f) s))) <->
  In e (cleaning_page f s) \/
  (fst (run (Some f) s) = Ok tt /\
   In e (charts_ui (data (snd (run (Some f) s))) s ++ about_ui)) \/
  (fst (run (Some f) s) <> Ok tt /\
   In e [Header "Exploratory Data Analysis (EDA)";
         Subheader "Solar Radiation Trends"]).
Proof.
  rewrite final_data, run_page.
  destruct (defaults_valid (coerced (handled f s))); cbn [fst snd ui];
    rewrite in_app_iff; split.
  - intros [H|H]; auto.
  - intros [H|[[_ H]|[H _]]]; auto. congruence.
  - intros [H|H]; auto. right. right. split; [discriminate | exact H].
  - intros [H|[[H _]|[_ H]]]; auto. discriminate.
Qed.

Lemma not_in_cleaning_page (f : frame) (s : session) (e : element) :
  is_warning e = true \/ chart_columns e <> [] ->
  ~ In e (cleaning_page f s).
Proof.
  intros He Hin. pose proof (cleaning_page_plain f s) as Hplain.
  rewrite Forall_forall in Hplain. destruct (Hplain e Hin) as [Hw Hc].
  destruct He; congruence.
Qed.

Lemma lookup_None_iff (c : string) (d : frame) :
  lookup c d = None <-> ~ In c (columns d).
Proof.
  rewrite <- mem_In. split.
  - intros Hl Hm. destruct (lookup_mem c d Hm) as [x Hx]. congruence.
  - intros Hm. apply lookup_not_mem. destruct (mem c (columns d)); congruence.
Qed.

Lemma final_columns (f : frame) (s : session) :
  columns (data (snd (run (Some f) s))) = columns f.
Proof. rewrite final_data, columns_coerced. apply columns_handled. Qed.

(** X3.  The wind warning is on the page exactly when the run completes and the
    file has no WD column or no WS column. *)
Theorem wind_warning_iff (f : frame) (s : session) :
  In wind_warning (ui (snd (run (Some f) s))) <->
  fst (run (Some f) s) = Ok tt /\
  (~ In "WD" (columns f) \/ ~ In "WS" (columns f)).
Proof.
  rewrite in_page, in_app_iff. unfold wind_warning at 2.
  rewrite warning_in_charts.
  rewrite !lookup_None_iff, final_columns.
  split.
  - intros [H|[[Hok [[H|[H|[H|H]]]|H]]|[_ H]]].
    + exfalso. revert H. apply not_in_cleaning_page. left. reflexivity.
    + destruct H as [H _]. discriminate.
    + destruct H as [H _]. discriminate.
    + destruct H as [H _]. discriminate.
    + split; [exact Hok | tauto].
    + destruct H as [H|[H|[]]]; discriminate.
    + destruct H as [H|[H|[]]]; discriminate.
  - intros [Hok H]. right. left. split; [exact Hok|].
    left. right. right. right. split; [reflexivity | exact H].
Qed.

Lemma filter_nil_iff (A : Type) (p : A -> bool) (l : list A) :
  filter p l = [] <-> forall x, In x l -> p x = false.
Proof.
  induction l as [|a t IH]; simpl.
  - split; [intros _ x [] | reflexivity].
  - destruct (p a) eqn:Ha; split.
    + discriminate.
    + intros H. rewrite (H a) in Ha by auto. discriminate.
    + intros H x [<-|Hx]; [exact Ha | apply IH; assumption].
    + intros H. apply IH. intros x Hx. apply H. auto.
Qed.

(** X4.  In a run that completes, the line chart and the heatmap give way to
    their warnings exactly when the user's choice for them holds no numeric
    column. *)
Theorem selection_warnings (f : frame) (s : session) :
  fst (run (Some f) s) = Ok tt ->
  let numeric := select_dtypes DNumber (data (snd (run (Some f) s))) in
  (In (Warning "Please select at least one column for the line chart.")
      (ui (snd (run (Some f) s))) <->
   exists sel,
     line_selection s = Some sel /\ forall c, In c sel -> ~ In c numeric) /\
  (In (Warning "Please select at least one column for correlation analysis.")
      (ui (snd (run (Some f) s))) <->
   exists sel,
     corr_selection s = Some sel /\ forall c, In c sel -> ~ In c numeric).
Proof.
  intros Hok numeric.
  assert (Hghi : In "GHI" numeric).
  { destruct (completes_when_valid f s) as [H _]. apply H in Hok.
    apply mem_In. unfold defaults_valid in Hok.
    rewrite forallb_forall in Hok. apply Hok. left. reflexivity. }
  assert (Hsel : forall default chosen,
             default <> [] ->
             (selection numeric default chosen = [] <->
              exists sel, chosen = Some sel /\
                          forall c, In c sel -> ~ In c numeric)).
  { intros default chosen Hne. destruct chosen as [sel|]; simpl.
    - rewrite filter_nil_iff. split.
      + intros H. exists sel. split; [reflexivity|].
        intros c Hc Hin. apply mem_In in Hin. rewrite (H c Hc) in Hin.
        discriminate.
      + intros [sel' [[= <-] H]] c Hc.
        destruct (mem c numeric) eqn:Hm; [|reflexivity].
        apply mem_In in Hm. destruct (H c Hc Hm).
    - split; [congruence | intros [sel [H _]]; discriminate]. }
  split.
  - rewrite in_page, in_app_iff, warning_in_charts.
    fold numeric. rewrite (Hsel line_defaults) by discriminate.
    split.
    + intros [H|[[_ [[H|[H|[H|H]]]|H]]|[H _]]].
      * exfalso. revert H. apply not_in_cleaning_page. left. reflexivity.
      * apply H.
      * destruct H as [H _]. discriminate.
      * destruct H as [H _]. discriminate.
      * destruct H as [H _]. discriminate.
      * destruct H as [H|[H|[]]]; discriminate.
      * congruence.
    + intros H. right. left. split; [exact Hok|]. left. left.
      split; [reflexivity | exact H].
  - rewrite in_page, in_app_iff, warning_in_charts.
    fold numeric. rewrite (Hsel numeric).
    2:{ intros Hnil. rewrite Hnil in Hghi. destruct Hghi. }
    split.
    + intros [H|[[_ [[H|[H|[H|H]]]|H]]|[H _]]].
      * exfalso. revert H. apply not_in_cleaning_page. left. reflexivity.
      * destruct H as [H _]. discriminate.
      * destruct H as [H _]. discriminate.
      * apply H.
      * destruct H as [H _]. discriminate.
      * destruct H as [H|[H|[]]]; discriminate.
      * congruence.
    + intros H. right. left. split; [exact Hok|]. left. right. right. left.
      split; [reflexivity | exact H].
Qed.

(** X5.  In a run that completes with the two selectors untouched, the page has
    the line chart of GHI, DNI and DHI, in this order, and the heatmap of all
    the numeric columns of the cleaned frame. *)
Theorem default_charts (f : frame) (s : session) :
  fst (run (Some f) s) = Ok tt ->
  let d := data (snd (run (Some f) s)) in
  (line_selection s = None ->
   exists sub,
     lookup_all ["GHI"; "DNI"; "DHI"] d = Some sub /\
     columns sub = ["GHI"; "DNI"; "DHI"] /\
     In (LineChart sub) (ui (snd (run (Some f) s)))) /\
  (corr_selection s = None ->
   exists sub,
     lookup_all (select_dtypes DNumber d) d = Some sub /\
     columns sub = select_dtypes DNumber d /\
     In (Pyplot (Heatmap sub)) (ui (snd (run (Some f) s)))).
Proof.
  intros Hok d.
  pose proof (proj1 (completes_when_valid f s) Hok) as Hvalid. fold d in Hvalid.
  assert (Hghi : In "GHI" (select_dtypes DNumber d)).
  { unfold defaults_valid in Hvalid. rewrite forallb_forall in Hvalid.
    apply mem_In. apply Hvalid. left. reflexivity. }
  split.
  - intros Hnone.
    destruct (lookup_all_numeric line_defaults d) as [Hl Hc].
    { intros c Hc. apply mem_In. unfold defaults_valid in Hvalid.
      rewrite forallb_forall in Hvalid. auto. }
    exists (subframe line_defaults d).
    split; [exact Hl|]. split; [exact Hc|].
    apply in_page. right. left. split; [exact Hok|]. fold d.
    apply in_or_app. left. unfold charts_ui. right.
    apply in_or_app. left. unfold line_ui. rewrite Hnone.
    apply in_or_app. right. left. reflexivity.
  - intros Hnone.
    destruct (lookup_all_numeric (select_dtypes DNumber d) d) as [Hl Hc];
      [auto|].
    exists (subframe (select_dtypes DNumber d) d).
    split; [exact Hl|]. split; [exact Hc|].
    apply in_page. right. left. split; [exact Hok|]. fold d.
    apply in_or_app. left. unfold charts_ui. right.
    apply in_or_app. right. apply in_or_app. right.
    apply in_or_app. left. unfold correlation_ui. rewrite Hnone.
    apply in_or_app. right. simpl selection.
    destruct (select_dtypes DNumber d) as [|c0 t0]; [destruct Hghi|].
    left. reflexivity.
Qed.

Lemma bins_of_bounds (s : session) :
  (5 <= bins_of s <= 50)%Z /\ (bin_choice s = None -> bins_of s = 20%Z).
Proof.
  unfold bins_of. destruct (bin_choice s) as [v|].
  - split; [lia | discriminate].
  - split; [lia | reflexivity].
Qed.

(** X6.  Every histogram on a page is the histogram of the GHI column of the
    cleaned frame, with between 5 and 50 bins, 20 when the slider is
    untouched. *)
Theorem histogram_bins (uploaded_file : option frame) (s : session)
  (g : series) (b : Z) :
  In (Pyplot (HistPlot g b)) (ui (snd (run uploaded_file s))) ->
  lookup "GHI" (data (snd (run uploaded_file s))) = Some g /\
  (5 <= b <= 50)%Z /\
  (bin_choice s = None -> b = 20%Z).
Proof.
  destruct uploaded_file as [f|].
  - rewrite in_page, in_app_iff. intros [H|[[_ [H|H]]|[_ H]]].
    + exfalso. revert H. apply not_in_cleaning_page. right. discriminate.
    + unfold charts_ui in H. destruct H as [H|H]; [discriminate|].
      apply in_app_or in H. destruct H as [H|H].
      { unfold line_ui in H. apply in_app_or in H. destruct H as [H|H].
        - destruct H as [H|[H|[]]]; discriminate.
        - destruct (selection _ _ _); destruct H as [H|[]]; discriminate. }
      apply in_app_or in H. destruct H as [H|H].
      { unfold histogram_ui in H.
        destruct (lookup "GHI" (data (snd (run (Some f) s)))) as [ghi|];
          [|destruct H as [H|[]]; discriminate].
        destruct H as [H|[H|[H|[]]]]; try discriminate.
        injection H as -> <-. split; [reflexivity | apply bins_of_bounds]. }
      apply in_app_or in H. destruct H as [H|H].
      { unfold correlation_ui in H. apply in_app_or in H.
        destruct H as [H|H].
        - destruct H as [H|[H|[]]]; discriminate.
        - destruct (selection _ _ _); destruct H as [H|[]]; discriminate. }
      unfold wind_ui in H.
      destruct (lookup "WD" _); [destruct (lookup "WS" _)|].
      * destruct H as [H|[H|[]]]; discriminate.
      * destruct H as [H|[]]; discriminate.
      * destruct H as [H|[]]; discriminate.
    + destruct H as [H|[H|[]]]; discriminate.
    + destruct H as [H|[H|[]]]; discriminate.
  - rewrite run_without_file. cbn [snd ui]. simpl. intros H.
    repeat (destruct H as [H|H]; [discriminate|]). destruct H.
Qed.

End ChartProperties.

(** * Properties of the cleaning operations *)

Section FrameProperties.
Context {N : Numeric}.

Lemma pad_idem (l : list cell) :
  forall last, pad last (pad last l) = pad last l.
Proof.
  induction l as [|c t IH]; intros last; simpl; [reflexivity|].
  destruct (isnull c) eqn:Hc; simpl.
  - destruct (isnull last); rewrite IH; reflexivity.
  - rewrite Hc, IH. reflexivity.
Qed.

Lemma pad_clean (l : list cell) :
  (forall c, In c l -> isnull c = false) ->
  forall last, pad last l = l.
Proof.
  induction l as [|c t IH]; intros Hl last; simpl; [reflexivity|].
  rewrite (Hl c) by (left; reflexivity).
  rewrite IH; [reflexivity|]. intros x Hx. apply Hl. right. exact Hx.
Qed.

Lemma pad_null_count (l : list cell) :
  forall last,
    length (filter isnull (pad last l)) <= length (filter isnull l).
Proof.
  induction l as [|c t IH]; intros last; simpl; [lia|].
  destruct (isnull c) eqn:Hc; simpl.
  - specialize (IH last). destruct (isnull last); simpl; lia.
  - rewrite Hc. apply IH.
Qed.

Lemma with_values_id (s : series) : with_values s (values s) = s.
Proof. destruct s. reflexivity. Qed.

Lemma no_missing_cells (df : frame) :
  has_missing df = false ->
  forall s, In s df -> forall c, In c (values s) -> isnull c = false.
Proof.
  intros Hm s Hs c Hc. destruct (isnull c) eqn:Hn; [|reflexivity].
  destruct c; try discriminate.
  assert (has_missing df = true) by (apply has_missing_iff; eauto).
  congruence.
Qed.

Lemma filter_all (A : Type) (p : A -> bool) (l : list A) :
  (forall x, In x l -> p x = true) -> filter p l = l.
Proof.
  induction l as [|a t IH]; intros H; simpl; [reflexivity|].
  rewrite (H a) by (left; reflexivity).
  rewrite IH; [reflexivity|]. intros x Hx. apply H. right. exact Hx.
Qed.

Lemma rectangular_of_lengths (df : frame) (n : nat) :
  (forall s, In s df -> length (values s) = n) -> rectangular df = true.
Proof.
  intros H. unfold rectangular. apply forallb_forall. intros s Hs.
  apply Nat.eqb_eq. rewrite (H s Hs).
  destruct df as [|s0 t0]; [destruct Hs|].
  simpl. symmetry. apply H. left. reflexivity.
Qed.

Lemma rectangular_map (g : series -> series) (df : frame) :
  (forall s, length (values (g s)) = length (values s)) ->
  rectangular df = true -> rectangular (map g df) = true.
Proof.
  intros Hg Hr. apply (rectangular_of_lengths _ (nrows df)).
  intros s Hs. apply in_map_iff in Hs. destruct Hs as [x [<- Hx]].
  rewrite Hg. apply rectangular_length; assumption.
Qed.

Lemma nrows_map (g : series -> series) (df : frame) :
  (forall s, length (values (g s)) = length (values s)) ->
  nrows (map g df) = nrows df.
Proof. intros Hg. destruct df as [|s t]; simpl; auto. Qed.

Lemma rectangular_ffill (df : frame) :
  rectangular df = true -> rectangular (ffill df) = true.
Proof.
  apply rectangular_map. intros s. simpl. apply pad_length.
Qed.

Lemma rectangular_dropna (df : frame) :
  rectangular df = true -> rectangular (dropna df) = true.
Proof.
  intros Hr. rewrite dropna_map by exact Hr.
  apply (rectangular_of_lengths _ (length (kept df))).
  intros s Hs. apply in_map_iff in Hs. destruct Hs as [x [<- _]].
  simpl. apply length_map.
Qed.

Lemma dropna_clean (df : frame) :
  rectangular df = true -> has_missing (dropna df) = false.
Proof.
  intros Hr. destruct (has_missing (dropna df)) eqn:Hm; [|reflexivity].
  apply has_missing_iff in Hm. destruct Hm as [s' [Hs' Hnan]].
  rewrite dropna_map in Hs' by exact Hr.
  apply in_map_iff in Hs'. destruct Hs' as [s [<- Hs]].
  simpl in Hnan. apply in_map_iff in Hnan. destruct Hnan as [i [Hc Hi]].
  unfold kept in Hi. apply filter_In in Hi. destruct Hi as [_ Hi].
  unfold row_complete in Hi. rewrite forallb_forall in Hi.
  specialize (Hi s Hs). unfold notnull in Hi. rewrite Hc in Hi.
  discriminate.
Qed.

Lemma dropna_id (df : frame) :
  rectangular df = true -> has_missing df = false -> dropna df = df.
Proof.
  intros Hr Hm. rewrite dropna_map by exact Hr.
  assert (Hkept : kept df = seq 0 (nrows df)).
  { unfold kept. apply filter_all. intros i Hi. apply in_seq in Hi.
    unfold row_complete. apply forallb_forall. intros s Hs.
    unfold notnull. apply negb_true_iff.
    apply (no_missing_cells df Hm s Hs). unfold cell_at. apply nth_In.
    rewrite (rectangular_length df s Hr Hs). lia. }
  rewrite Hkept.
  transitivity (map (fun s : series => s) df); [|apply map_id].
  apply map_ext_in.
  intros s Hs. rewrite <- (rectangular_length df s Hr Hs).
  unfold cell_at.
  rewrite (map_nth_seq cell cell (fun c => c) NaN (values s)), map_id.
  apply with_values_id.
Qed.

Lemma ffill_id (df : frame) : has_missing df = false -> ffill df = df.
Proof.
  intros Hm. unfold ffill.
  transitivity (map (fun s : series => s) df); [|apply map_id].
  apply map_ext_in.
  intros s Hs. unfold ffill_series.
  rewrite pad_clean by (apply (no_missing_cells df Hm s Hs)).
  apply with_values_id.
Qed.

(** X7.  After forward fill a cell is missing exactly when it and every cell
    above it in its column were missing: what is left missing is the top of
    a column, down to its first valid cell. *)
Theorem ffill_leaves_leading_gaps (df : frame) (c : string) (s : series)
  (i : nat) :
  lookup c df = Some s ->
  i < length (values s) ->
  exists s',
    lookup c (ffill df) = Some s' /\
    (isnull (cell_at i s') = true <->
     forall j, j <= i -> isnull (cell_at j s) = true).
Proof.
  intros Hl Hi. exists (ffill_series s).
  split; [rewrite lookup_ffill, Hl; reflexivity|].
  rewrite (ffill_cell s i Hi).
  destruct (isnull (cell_at i s)) eqn:Hnull.
  - destruct (last_valid (values s) i) as [v|] eqn:Hv.
    + destruct (last_valid_nearest _ _ _ Hv) as [j [Hj [_ [Hjv [Hnv _]]]]].
      split.
      * intros H. congruence.
      * intros H. specialize (H j). unfold cell_at in H.
        rewrite Hjv in H. rewrite H in Hnv by lia. discriminate.
    + split; [|reflexivity]. intros _ j Hj.
      destruct (Nat.eq_dec j i) as [->|Hne]; [exact Hnull|].
      apply (last_valid_none _ _ Hv). lia.
  - split.
    + intros H. congruence.
    + intros H. rewrite (H i) in Hnull by lia. discriminate.
Qed.

(** X8.  When no cell of the first row is missing, forward fill leaves no missing
    value at all. *)
Theorem ffill_complete_first_row (df : frame) :
  row_complete df 0 = true -> has_missing (ffill df) = false.
Proof.
  intros Hrow. destruct (has_missing (ffill df)) eqn:Hm; [|reflexivity].
  apply has_missing_iff in Hm. destruct Hm as [s' [Hs' Hnan]].
  unfold ffill in Hs'. apply in_map_iff in Hs'. destruct Hs' as [s [<- Hs]].
  apply In_nth with (d := NaN) in Hnan. destruct Hnan as [i [Hi Hc]].
  simpl in Hi. rewrite pad_length in Hi.
  pose proof (ffill_cell s i Hi) as Hcell. unfold cell_at at 1 in Hcell.
  rewrite Hc in Hcell.
  unfold row_complete in Hrow. rewrite forallb_forall in Hrow.
  specialize (Hrow s Hs). unfold notnull in Hrow.
  apply negb_true_iff in Hrow.
  destruct (isnull (cell_at i s)) eqn:Hnull.
  - destruct (last_valid (values s) i) as [v|] eqn:Hv.
    + destruct (last_valid_nearest _ _ _ Hv) as [j [_ [_ [Hjv [Hnv _]]]]].
      rewrite <- Hcell in Hnv. discriminate.
    + destruct i as [|i]; [congruence|].
      assert (H0 : isnull (nth 0 (values s) NaN) = true)
        by (apply (last_valid_none _ _ Hv); lia).
      unfold cell_at in Hrow. congruence.
  - rewrite <- Hcell in Hnull. discriminate.
Qed.

(** X9.  Forward fill is idempotent and never adds a missing value to a
    column. *)
Theorem ffill_settles (df : frame) :
  ffill (ffill df) = ffill df /\
  Forall2 (fun a b => fst a = fst b /\ snd a <= snd b)
    (isnull_sum (ffill df)) (isnull_sum df).
Proof.
  split.
  - unfold ffill. rewrite map_map. apply map_ext. intros s.
    unfold ffill_series, with_values. simpl. rewrite pad_idem. reflexivity.
  - unfold ffill, isnull_sum. induction df as [|s t IH]; simpl.
    + constructor.
    + constructor; [|exact IH]. simpl. split; [reflexivity|].
      unfold null_count. simpl. apply pad_null_count.
Qed.

(** X10.  Dropping rows leaves a rectangular frame without a missing value, and
    dropping again changes nothing. *)
Theorem dropna_settles (df : frame) :
  rectangular df = true ->
  rectangular (dropna df) = true /\
  has_missing (dropna df) = false /\
  dropna (dropna df) = dropna df.
Proof.
  intros Hr. split; [apply rectangular_dropna; exact Hr|].
  split; [apply dropna_clean; exact Hr|].
  apply dropna_id; [apply rectangular_dropna | apply dropna_clean];
    exact Hr.
Qed.

(** X11.  On a frame without a missing value both strategies change nothing. *)
Theorem strategies_keep_clean_frame (df : frame) :
  rectangular df = true ->
  has_missing df = false ->
  ffill df = df /\ dropna df = df.
Proof.
  intros Hr Hm. split; [apply ffill_id | apply dropna_id]; assumption.
Qed.

End FrameProperties.

(** * Properties of coercion and of the frame a run leaves *)

Section PipelineProperties.
Context {N : Numeric}.

Lemma kinds_coerced (df : frame) :
  distinct (columns df) = true ->
  forall col, In col (coerced df) -> kind col <> DObject.
Proof.
  intros Hd col Hin. rewrite coerced_map in Hin by exact Hd.
  apply in_map_iff in Hin. destruct Hin as [s [<- _]].
  apply coerce_series_kind.
Qed.

Lemma select_object_coerced (df : frame) :
  distinct (columns df) = true -> select_dtypes DObject (coerced df) = [].
Proof.
  intros Hd. unfold select_dtypes.
  rewrite (filter_none series); [reflexivity|].
  apply Forall_forall. intros col Hin.
  pose proof (kinds_coerced df Hd col Hin) as Hk.
  destruct (kind col); try reflexivity. congruence.
Qed.

Lemma distinct_handled (f : frame) (s : session) :
  distinct (columns f) = true -> distinct (columns (handled f s)) = true.
Proof. rewrite columns_handled. auto. Qed.

Lemma rectangular_handled (f : frame) (s : session) :
  rectangular f = true -> rectangular (handled f s) = true.
Proof.
  intros Hr. unfold handled. destruct (has_missing f); [|exact Hr].
  destruct (String.eqb (chosen_strategy s) "Forward fill");
    [apply rectangular_ffill; exact Hr|].
  destruct (String.eqb (chosen_strategy s) "Drop rows with missing values");
    [apply rectangular_dropna; exact Hr | exact Hr].
Qed.

Lemma nrows_dropna_rows (df : frame) :
  rectangular df = true ->
  nrows (dropna df) = length (filter (forallb notnull) (rows df)).
Proof.
  intros Hr. rewrite <- rows_dropna by exact Hr.
  unfold rows. rewrite length_map, length_seq. reflexivity.
Qed.

(** X12.  After the coercion loop no column of a frame with distinct names is of
    object dtype, whatever it held, and running the loop again changes
    nothing. *)
Theorem coercion_settles (df : frame) (u : list element) :
  distinct (columns df) = true ->
  (forall col, In col (coerced df) -> kind col <> DObject) /\
  select_dtypes DObject (coerced df) = [] /\
  coerce_objects (mkWorld (coerced df) u) = (Ok tt, mkWorld (coerced df) u).
Proof.
  intros Hd. split; [apply kinds_coerced; exact Hd|].
  split; [apply select_object_coerced; exact Hd|].
  rewrite coerce_objects_run. unfold coerced at 1.
  rewrite select_object_coerced by exact Hd. reflexivity.
Qed.

(** X13.  An entry of an object column that parses as a number is that number
    after the loop, in a numeric column; a missing entry stays missing. *)
Theorem parsed_entries (df : frame) (c : string) (col : series) (i : nat)
  (t : string) (x : num) :
  distinct (columns df) = true ->
  lookup c df = Some col ->
  kind col = DObject ->
  i < length (values col) ->
  cell_at i col = Str t ->
  parse_num t = Some x ->
  exists col',
    lookup c (coerced df) = Some col' /\
    kind col' = DNumber /\
    cell_at i col' = Num x /\
    forall j, cell_at j col = NaN -> cell_at j col' = NaN.
Proof.
  intros Hd Hl Hk Hi Hc Hp. exists (coerce_series col).
  split.
  { rewrite coerced_map by exact Hd.
    rewrite lookup_map by apply coerce_series_name.
    rewrite Hl. reflexivity. }
  assert (Hnth : forall j,
    nth j (map coerce_cell (values col)) NaN = coerce_cell (cell_at j col)).
  { intros j. pose proof (map_nth coerce_cell (values col) NaN j) as Hmap.
    change (coerce_cell NaN) with NaN in Hmap at 1. exact Hmap. }
  assert (Hin : In (Num x) (map coerce_cell (values col))).
  { replace (Num x) with (nth i (map coerce_cell (values col)) NaN).
    - apply nth_In. rewrite length_map. exact Hi.
    - rewrite Hnth, Hc. simpl. rewrite Hp. reflexivity. }
  rewrite coerce_series_object by exact Hk. cbn zeta.
  destruct (map coerce_cell (values col)) as [|c0 l0] eqn:Hm;
    [contradiction|].
  destruct (forallb is_boolean (c0 :: l0)) eqn:Hb.
  { rewrite forallb_forall in Hb. specialize (Hb _ Hin). discriminate. }
  split; [reflexivity|].
  assert (Hnth' : forall j,
    cell_at j (mkSeries (name col) DNumber (map as_number (c0 :: l0))) =
    as_number (coerce_cell (cell_at j col))).
  { intros j. unfold cell_at at 1. cbn [values].
    pose proof (map_nth as_number (c0 :: l0) NaN j) as Hmap.
    change (as_number NaN) with NaN in Hmap at 1.
    rewrite Hmap, Hnth. reflexivity. }
  split.
  - rewrite Hnth', Hc. simpl. rewrite Hp. reflexivity.
  - intros j Hj. rewrite Hnth', Hj. reflexivity.
Qed.

(** X14.  A run keeps the frame well formed: the columns of the file, under the
    same names and in the same order, all of the same length, and none of
    object dtype. *)
Theorem run_keeps_frame_well_formed (f : frame) (s : session) :
  well_formed f = true ->
  well_formed (data (snd (run (Some f) s))) = true /\
  columns (data (snd (run (Some f) s))) = columns f /\
  forall col, In col (data (snd (run (Some f) s))) -> kind col <> DObject.
Proof.
  intros Hwf. unfold well_formed in Hwf.
  apply andb_true_iff in Hwf. destruct Hwf as [Hr Hd].
  pose proof (distinct_handled f s Hd) as Hd1.
  pose proof (rectangular_handled f s Hr) as Hr1.
  split; [|split].
  - unfold well_formed. rewrite final_columns, Hd, andb_true_r.
    rewrite final_data, coerced_map by exact Hd1.
    apply rectangular_map; [apply coerce_series_length | exact Hr1].
  - apply final_columns.
  - rewrite final_data. apply kinds_coerced. exact Hd1.
Qed.

(** X15.  The number of rows a run leaves: that of the file, unless rows with
    missing values were dropped, and then the number of rows of the file
    without a missing value. *)
Theorem run_row_count (f : frame) (s : session) :
  well_formed f = true ->
  nrows (data (snd (run (Some f) s))) =
    (if has_missing f
        && String.eqb (chosen_strategy s) "Drop rows with missing values"
     then length (filter (forallb notnull) (rows f))
     else nrows f) /\
  nrows (data (snd (run (Some f) s))) <= nrows f.
Proof.
  intros Hwf. unfold well_formed in Hwf.
  apply andb_true_iff in Hwf. destruct Hwf as [Hr Hd].
  assert (Hn : nrows (data (snd (run (Some f) s))) = nrows (handled f s)).
  { rewrite final_data, coerced_map by (apply distinct_handled; exact Hd).
    apply nrows_map. apply coerce_series_length. }
  assert (Hle : length (filter (forallb notnull) (rows f)) <= nrows f).
  { rewrite filter_length_le. unfold rows.
    rewrite length_map, length_seq. lia. }
  rewrite Hn. unfold handled.
  destruct (has_missing f); cbn [andb]; [|split; lia].
  destruct (String.eqb_spec (chosen_strategy s) "Forward fill") as [He|He].
  - rewrite He. cbn [String.eqb Ascii.eqb Bool.eqb]. rewrite nrows_ffill.
    split; lia.
  - destruct (String.eqb (chosen_strategy s)
                "Drop rows with missing values").
    + rewrite nrows_dropna_rows by exact Hr. split; lia.
    + split; lia.
Qed.

(** X16.  The frame a run leaves depends on the file and on the radio control
    alone: neither the checkbox, nor the selectors, nor the slider, nor the
    chart section stopping early changes it. *)
Theorem widgets_do_not_alter_data (f : frame) (s s' : session) :
  radio_index s = radio_index s' ->
  data (snd (run (Some f) s)) = data (snd (run (Some f) s')).
Proof.
  intros Hradio. rewrite !final_data.
  unfold handled, chosen_strategy. rewrite Hradio. reflexivity.
Qed.

End PipelineProperties.

(** * The claims on the decimal readings *)

Import Decimal.

(** C4 (as stated).  In a file whose first GHI reading is missing, forward
    fill has no value to put in that cell: "every missing cell is replaced by
    the most recent non-missing value above it" fails there. *)
Lemma fill_leaves_leading_gap : ~ strategies_as_named late_start.
Proof.
  intros [_ Hfill].
  destruct (Hfill "GHI" _ 0 eq_refl) as [s' [_ [_ Hmissing]]].
  - simpl. lia.
  - destruct (Hmissing eq_refl) as [j [Hj _]]. lia.
Qed.

Lemma cleaning_strategies_witness :
  rectangular readings = true /\
  rows (dropna readings) = filter (forallb notnull) (rows readings).
Proof.
  split; [reflexivity|].
  apply (cleaning_strategies readings). reflexivity.
Defined.

Lemma frame_effects_witness :
  well_formed readings = true /\
  dtypes (ffill readings) = dtypes readings /\
  dtypes (dropna readings) = dtypes readings /\
  columns (coerced readings) = columns readings.
Proof.
  split; [reflexivity|].
  destruct (frame_effects readings [] eq_refl)
    as [[_ [Hfill _]] [[_ [Hdrop _]] [_ [Hcoerce _]]]].
  auto.
Defined.

Lemma fallback_unreachable_witness :
  distinct (columns readings) = true /\
  lookup "site" readings =
    Some (mkSeries "site" DObject [Str "north"; Str "south"; NaN]) /\
  coerce_column "site" (mkWorld readings []) =
  convert_column "site" (mkWorld readings []).
Proof.
  split; [reflexivity|]. split; [reflexivity|].
  apply (fallback_unreachable readings [] "site"
           (mkSeries "site" DObject [Str "north"; Str "south"; NaN])
           eq_refl eq_refl eq_refl).
Defined.

Lemma drop_then_coerce_leaves_missing_witness :
  parse_num "north" = None /\
  exists (f : frame) (s : session),
    well_formed f = true /\
    has_missing f = true /\
    chosen_strategy s = "Drop rows with missing values" /\
    has_missing (dropna f) = false /\
    fst (run (Some f) s) = Ok tt /\
    In (Success "Rows with missing values have been dropped!")
       (ui (snd (run (Some f) s))) /\
    has_missing (data (snd (run (Some f) s))) = true.
Proof.
  split; [reflexivity|].
  apply (drop_then_coerce_leaves_missing (N := numeric) "north" 510%Q).
  reflexivity.
Defined.

Lemma missing_ghi_raises_witness :
  mem "GHI" (columns wind_only) = false /\
  fst (run (Some wind_only) untouched) =
    Raised (StreamlitAPIException
              "Every Multiselect default value must exist in options").
Proof.
  split; [reflexivity|].
  apply (missing_ghi_raises wind_only untouched). reflexivity.
Defined.

Lemma wind_scatter_points_witness :
  rectangular readings = true /\
  mem "WD" (columns readings) = true /\
  mem "WS" (columns readings) = true /\
  exists wd ws,
    lookup "WD" readings = Some wd /\
    lookup "WS" readings = Some ws /\
    length (scatter_points (deg2rad_series wd) ws) = nrows readings.
Proof.
  split; [reflexivity|]. split; [reflexivity|]. split; [reflexivity|].
  destruct (wind_scatter_points readings [] eq_refl eq_refl eq_refl)
    as [wd [ws [Hwd [Hws [_ [Hlen _]]]]]].
  exists wd, ws. auto.
Defined.

(** C2 (what the code does).  The site labels of the readings do not parse
    as numbers; after a run the site column is numeric and all NaN, not a
    column of strings. *)
Theorem labels_become_nan :
  fst (run (Some readings) untouched) = Ok tt /\
  lookup "site" (data (snd (run (Some readings) untouched))) =
    Some (mkSeries "site" DNumber [NaN; NaN; NaN]) /\
  ~ falls_back_to_strings readings.
Proof.
  split; [vm_compute; reflexivity|]. split; [vm_compute; reflexivity|].
  intros Hfall.
  destruct (Hfall "site"
              (mkSeries "site" DObject [Str "north"; Str "south"; NaN])
              eq_refl eq_refl) as [s' [Hl [Hk _]]].
  - exists "north". split; [left; reflexivity | reflexivity].
  - vm_compute in Hl. injection Hl as <-. discriminate Hk.
Qed.

(** * The further properties on the decimal readings *)

Lemma readings_run_completes : fst (run (Some readings) untouched) = Ok tt.
Proof. apply completes_when_valid. rewrite final_data. reflexivity. Qed.

Lemma selection_warnings_witness :
  fst (run (Some readings) untouched) = Ok tt /\
  ~ In (Warning "Please select at least one column for the line chart.")
      (ui (snd (run (Some readings) untouched))).
Proof.
  split; [exact readings_run_completes|].
  intros Hin.
  destruct (proj1 (proj1 (selection_warnings readings untouched
                            readings_run_completes)) Hin) as [sel [Hsel _]].
  discriminate Hsel.
Defined.

Lemma default_charts_witness :
  fst (run (Some readings) untouched) = Ok tt /\
  exists sub,
    columns sub = ["GHI"; "DNI"; "DHI"] /\
    In (LineChart sub) (ui (snd (run (Some readings) untouched))).
Proof.
  split; [exact readings_run_completes|].
  destruct (proj1 (default_charts readings untouched readings_run_completes)
              eq_refl) as [sub [_ [Hc Hin]]].
  exists sub. split; [exact Hc | exact Hin].
Defined.

Lemma readings_histogram :
  In (Pyplot (HistPlot (mkSeries "GHI" DNumber [Num 510%Q; NaN; Num 530%Q])
                20))
     (ui (snd (run (Some readings) untouched))).
Proof.
  apply in_page. right. left. split; [exact readings_run_completes|].
  rewrite final_data. apply in_or_app. left. unfold charts_ui. right.
  apply in_or_app. right. apply in_or_app. left.
  right. right. left. reflexivity.
Qed.

Lemma histogram_bins_witness :
  In (Pyplot (HistPlot (mkSeries "GHI" DNumber [Num 510%Q; NaN; Num 530%Q])
                20))
     (ui (snd (run (Some readings) untouched))) /\
  (5 <= 20 <= 50)%Z.
Proof.
  split; [exact readings_histogram|].
  apply (histogram_bins (Some readings) untouched _ 20 readings_histogram).
Defined.

Lemma ffill_leaves_leading_gaps_witness :
  lookup "GHI" late_start = Some (mkSeries "GHI" DNumber [NaN; Num 510%Q]) /\
  exists s',
    lookup "GHI" (ffill late_start) = Some s' /\
    (isnull (cell_at 0 s') = true <->
     forall j, j <= 0 ->
       isnull (cell_at j (mkSeries "GHI" DNumber [NaN; Num 510%Q])) = true).
Proof.
  split; [reflexivity|].
  apply (ffill_leaves_leading_gaps late_start "GHI" _ 0 eq_refl).
  simpl. lia.
Defined.

Lemma ffill_complete_first_row_witness :
  row_complete readings 0 = true /\ has_missing (ffill readings) = false.
Proof.
  split; [reflexivity|].
  apply (ffill_complete_first_row readings). reflexivity.
Defined.

Lemma dropna_settles_witness :
  rectangular readings = true /\
  has_missing (dropna readings) = false /\
  dropna (dropna readings) = dropna readings.
Proof.
  split; [reflexivity|].
  apply (dropna_settles readings). reflexivity.
Defined.

Lemma strategies_keep_clean_frame_witness :
  rectangular wind_only = true /\
  has_missing wind_only = false /\
  ffill wind_only = wind_only /\ dropna wind_only = wind_only.
Proof.
  split; [reflexivity|]. split; [reflexivity|].
  apply (strategies_keep_clean_frame wind_only); reflexivity.
Defined.

Lemma coercion_settles_witness :
  distinct (columns readings) = true /\
  select_dtypes DObject (coerced readings) = [].
Proof.
  split; [reflexivity|].
  apply (coercion_settles readings [] eq_refl).
Defined.

Lemma parsed_entries_witness :
  parse_num "12.5" = Some (Qmake 125 10) /\
  exists col',
    lookup "GHI" (coerced [mkSeries "GHI" DObject [Str "12.5"; NaN]]) =
      Some col' /\
    kind col' = DNumber /\
    cell_at 0 col' = Num (Qmake 125 10).
Proof.
  split; [reflexivity|].
  destruct (parsed_entries (N := numeric)
              [mkSeries "GHI" DObject [Str "12.5"; NaN]] "GHI"
              (mkSeries "GHI" DObject [Str "12.5"; NaN]) 0 "12.5"
              (Qmake 125 10) eq_refl eq_refl eq_refl)
    as [col' [Hl [Hk [Hc _]]]].
  - simpl. lia.
  - reflexivity.
  - reflexivity.
  - exists col'. split; [exact Hl|]. split; [exact Hk | exact Hc].
Defined.

Lemma run_keeps_frame_well_formed_witness :
  well_formed readings = true /\
  columns (data (snd (run (Some readings) untouched))) = columns readings.
Proof.
  split; [reflexivity|].
  apply (run_keeps_frame_well_formed readings untouched). reflexivity.
Defined.

Lemma run_row_count_witness :
  well_formed readings = true /\
  nrows (data (snd (run (Some readings) untouched))) <= nrows readings.
Proof.
  split; [reflexivity|].
  apply (run_row_count readings untouched). reflexivity.
Defined.

Lemma widgets_do_not_alter_data_witness :
  data (snd (run (Some readings) untouched)) =
  data (snd (run (Some readings) (mkSession 0 true (Some ["WD"]) (Some 7%Z)
                                    (Some [])))).
Proof.
  apply (widgets_do_not_alter_data readings untouched). reflexivity.
Defined.

Lemma wind_only_raises :
  fst (run (Some wind_only) untouched) = Raised multiselect_error.
Proof. rewrite run_page. reflexivity. Qed.

Lemma selector_raises_iff_witness :
  fst (run (Some wind_only) untouched) = Raised multiselect_error /\
  forall e,
    In e (ui (snd (run (Some wind_only) untouched))) -> chart_columns e = [].
Proof.
  split; [exact wind_only_raises|].
  apply (proj2 (selector_raises_iff wind_only untouched) wind_only_raises).
Defined.
